(** * tomato: the REST object pipeline, embedded and checked against its spec

    Shallow embedding of
      - [rest/destroy.go]         (the Destroy orchestrator),
      - [controllers/classes.go]  (the request adapter: [Prepare] and the
                                   class handlers),
      - [authdatamanager/request.go] (the HTTP helper [request]),
      - the account-lockout state machine exercised by the tests of package
        [rest] (its implementation is not part of the sources at hand).

    Go values are modelled as follows.
      - [string] is a byte sequence: Rocq's [string].
      - [interface{}] is the tagged union [value]; a nil interface is [VNil].
      - [types.M] = [map[string]interface{}] is [gmap string value]; a
        variable of map type may be nil, hence [option (gmap string value)].
      - a slice may be nil, hence [option (list _)].
      - a run-time panic (failed type assertion, index out of range, write to
        a nil map, nil dereference) is the outcome [Panicked]. *)

From Stdlib Require Import Ascii.
From stdpp Require Import gmap strings list fin_maps pretty.

Open Scope string_scope.
Open Scope Z_scope.

(* ===================================================================== *)
(** * Part I. Definitions                                                 *)
(* ===================================================================== *)

(** ** Generic values *)

#[warnings="-register-all"]
Inductive value : Type :=
  | VNil
  | VString (s : string)
  | VInt (z : Z)
  | VBool (b : bool)
  | VSlice (l : list value)            (* []interface{} / types.S, non-nil *)
  | VStrings (l : list string)         (* []string *)
  | VMap (m : gmap string value).      (* types.M, non-nil *)

(** A variable of type [types.M]: [None] is the nil map. *)
Abbreviation M := (option (gmap string value)).

(** ** Outcomes of Go code that may panic or answer the HTTP request *)

(** Error codes of package [errs].  The package is not among the sources, so
    its named constants stay symbolic; literal codes are kept as numbers. *)
Inductive ErrCode : Type :=
  | InvalidJSON
  | InvalidQuery
  | ObjectNotFound
  | Code (n : Z).

(** [errs.E(code, message)] *)
Record Error : Type := E { code : ErrCode; message : string }.

Inductive outcome (A : Type) : Type :=
  | Continue (a : A)       (* the function returned normally *)
  | Panicked.              (* a run-time panic unwound the call *)
Arguments Continue {A} a.
Arguments Panicked {A}.

#[global] Instance outcome_ret : MRet outcome := fun _ a => Continue a.

#[global] Instance outcome_bind : MBind outcome := fun _ _ f x =>
  match x with
  | Continue a => f a
  | Panicked => Panicked
  end.

(** ** Go primitives *)
Module Go.

(** [m[k]]: reading a missing key, or any key of a nil map, yields nil. *)
Definition index (m : M) (k : string) : value :=
  match m with
  | Some m => default VNil (m !! k)
  | None => VNil
  end.

(** [p != nil] for a map, a slice or a pointer. *)
Definition present {A} (p : option A) : bool :=
  match p with Some _ => true | None => false end.

(** [v != nil] for an interface value. *)
Definition notNil (v : value) : bool :=
  match v with VNil => false | _ => true end.

(** [v.(string)]: the single-result type assertion panics on failure. *)
Definition assertString (v : value) : outcome string :=
  match v with
  | VString s => Continue s
  | _ => Panicked
  end.

(** [delete(m, k)]: a no-op on a nil map. *)
Definition mapDelete (m : M) (k : string) : M :=
  match m with
  | Some m => Some (delete k m)
  | None => None
  end.

(** [m[k] = v]: assignment to an entry of a nil map panics. *)
Definition mapSet (m : M) (k : string) (v : value) : outcome M :=
  match m with
  | Some m => Continue (Some (<[k := v]> m))
  | None => Panicked
  end.

End Go.

(* ===================================================================== *)
(** ** Package rest: the Destroy orchestrator ([rest/destroy.go])         *)
(* ===================================================================== *)
Module rest.

(** [rest.Auth] as far as [destroy.go] and [classes.go] use it. *)
Record Auth : Type := mkAuth {
  IsMaster : bool;
  InstallationID : string;
  User : M;
  UserRoles : list string;
}.

Inductive TriggerType : Type :=
  | TypeBeforeSave | TypeAfterSave | TypeBeforeDelete | TypeAfterDelete.

(** The collaborators [destroy.go] calls.  None of them is among the
    sources; each is a function of the world [W] it may read and change
    (store contents, registered hooks, caches).  [GetUserRoles] is a method
    on [*Auth] and returns the receiver as it leaves it. *)
Class Collaborators (W : Type) : Type := {
  RunTrigger : TriggerType → string → Auth → M → M → W → W * option Error;
  GetUserRoles : Auth → W → Auth * W;
  orm_Destroy : string → M → gmap string value → W → W * option Error;
}.

(** The receiver of the orchestrator; [auth] is the [*Auth] of the request,
    taken to be non-nil as [Execute] dereferences it unconditionally. *)
Record Destroy : Type := NewDestroy {
  auth : Auth;
  className : string;
  query : M;
  originalData : M;
}.

Definition setAuth (d : Destroy) (a : Auth) : Destroy :=
  {| auth := a; className := className d; query := query d;
     originalData := originalData d |}.

Section Orchestrator.
Context {W : Type} `{Collaborators W}.

(** Every step is a method on [*Destroy]: it returns an [error], the
    receiver as the step leaves it, and the world. *)
Definition step : Type := outcome (option Error * Destroy * W).

Definition handleSession (d : Destroy) (w : W) : step :=
  if negb (String.eqb (className d) "_Session") then
    Continue (None, d, w)
  else
    let sessionToken := Go.index (originalData d) "sessionToken" in
    (* if sessionToken != nil { /* TODO */ } *)
    Continue (None, d, w).

Definition runBeforeTrigger (d : Destroy) (w : W) : step :=
  let '(w1, _) :=
    RunTrigger TypeBeforeDelete (className d) (auth d) None (originalData d) w in
  Continue (None, d, w1).

Definition handleUserRoles (d : Destroy) (w : W) : step :=
  if negb (IsMaster (auth d)) then
    let '(a, w1) := GetUserRoles (auth d) w in
    Continue (None, setAuth d a, w1)
  else
    Continue (None, d, w).

Definition runDestroy (d : Destroy) (w : W) : step :=
  options ←
    (if negb (IsMaster (auth d)) then
       let acl := ["*"] in
       acl ←
         (match User (auth d) with
          | Some _ =>
              uid ← Go.assertString (Go.index (User (auth d)) "objectId");
              let acl := app acl [uid] in
              let acl := app acl (UserRoles (auth d)) in
              Continue acl
          | None => Continue acl
          end);
       Continue (<["acl" := VStrings acl]> ∅)
     else Continue ∅);
  let '(w1, _) := orm_Destroy (className d) (query d) options w in
  Continue (None, d, w1).

Definition runAfterTrigger (d : Destroy) (w : W) : step :=
  let '(w1, _) :=
    RunTrigger TypeAfterDelete (className d) (auth d) None (originalData d) w in
  Continue (None, d, w1).

(** [Execute] returns a [map[string]interface{}]; the [error] of each
    step is dropped on the floor. *)
Definition Execute (d : Destroy) (w : W) : outcome (M * Destroy * W) :=
  ('(_, d, w) ← handleSession d w ;
   '(_, d, w) ← runBeforeTrigger d w ;
   '(_, d, w) ← handleUserRoles d w ;
   '(_, d, w) ← runDestroy d w ;
   '(_, d, w) ← runAfterTrigger d w ;
   Continue (None, d, w)).

(** The error a step hands back, when it returns. *)
Definition stepError (s : step) : option Error :=
  match s with
  | Continue (e, _, _) => e
  | Panicked => None
  end.

End Orchestrator.

(** The identifiers a caller may act as: ["*"], then the caller's
    [objectId] and roles when there is a caller. *)
Definition aclOf (a : Auth) : outcome (list string) :=
  match User a with
  | None => Continue ["*"]
  | Some u =>
      match u !! "objectId" with
      | Some (VString uid) => Continue ("*" :: uid :: UserRoles a)
      | _ => Panicked
      end
  end.

(** The same collaborators with every error they report dropped. *)
Definition silent {W} (c : Collaborators W) : Collaborators W := {|
  RunTrigger t cls a new old w := ((RunTrigger t cls a new old w).1, None);
  GetUserRoles := GetUserRoles;
  orm_Destroy cls q options w := ((orm_Destroy cls q options w).1, None);
|}.

End rest.

(** ** A small store to run the Destroy orchestrator on *)
Module restExample.
Import rest.

(** Rows of the example store: (class name, objectId). *)
Definition Rows : Type := list (string * string).

Definition vetoError : Error := E (Code 141) "delete vetoed".

Definition sameRow (cls id : string) (r : string * string) : bool :=
  String.eqb (fst r) cls && String.eqb (snd r) id.

(** Modelled from the spec: the Store, the Trigger Dispatcher and role
    resolution (packages [orm] and the rest of [rest] are not among the
    sources).  The store deletes by query on [objectId]; the class
    ["Locked"] has a BeforeDelete hook that returns an error, no other hook
    is registered; role resolution leaves the caller as it is.  The ACL
    option is not interpreted by this store. *)
#[global] Instance exampleWorld : Collaborators Rows := {|
  RunTrigger t cls _ _ _ w :=
    match t with
    | TypeBeforeDelete =>
        if String.eqb cls "Locked" then (w, Some vetoError) else (w, None)
    | _ => (w, None)
    end;
  GetUserRoles a w := (a, w);
  orm_Destroy cls q _ w :=
    match Go.index q "objectId" with
    | VString id => (filter (fun r => negb (sameRow cls id r)) w, None)
    | _ => (w, None)
    end;
|}.

Definition masterAuth : Auth :=
  {| IsMaster := true; InstallationID := ""; User := None; UserRoles := [] |}.

Definition rows0 : Rows := [("Locked", "o1"); ("Locked", "o2")].

Definition destroyO1 : Destroy :=
  NewDestroy masterAuth "Locked"
    (Some {["objectId" := VString "o1"]})
    (Some {["objectId" := VString "o1"]}).

End restExample.

(** ** Package config *)
Module config.

(** [config.TConfig], the fields the modelled code reads.  The source keeps
    it in a package-level variable; here it is passed explicitly.  The
    lockout duration is in minutes. *)
Record TConfig : Type := {
  AppID : string;
  MasterKey : string;
  ClientKey : string;
  AccountLockoutThreshold : Z;
  AccountLockoutDuration : Z;
}.

End config.

(* ===================================================================== *)
(** ** Package rest: account lockout                                      *)
(* ===================================================================== *)
Module AccountLockout.

Import config.

(** Instants are seconds on the clock of the server. *)
Definition minute : Z := 60.

(** [strconv.Itoa] *)
Definition Itoa (n : Z) : string := pretty n.

(** Modelled from the spec: the LockoutRecord embedded on a user object
    ([_failed_login_count], optional [_account_lockout_expires_at]); the
    counter is optional as well, since [isFailedLoginCountSet] asks for it. *)
Record LockoutRecord : Type := {
  failed_login_count : option Z;
  account_lockout_expires_at : option Z;
}.

(** The [_User] class, by username. *)
Abbreviation Users := (gmap string LockoutRecord).

Definition lockedError (cfg : TConfig) : Error :=
  E ObjectNotFound
    ("Your account is locked due to multiple failed login attempts. Please try again after "
     +:+ Itoa (AccountLockoutDuration cfg) +:+ " minute(s)").

(** Modelled from the spec: whether lockout is in force (section 4.2:
    "a threshold of 0 or negative disables lockout entirely (every attempt
    treated as not-locked)"). *)
Definition lockoutEnabled (cfg : TConfig) : bool :=
  bool_decide (0 < AccountLockoutThreshold cfg).

(** Modelled from the spec: [AccountLockout.notLocked] (section 4.2; the
    method is not among the sources, its test [Test_notLocked] is).  With
    lockout in force it fails when a record exists for the username with
    [now < expires_at] and [failedCount >= threshold], and succeeds
    otherwise; with a threshold of 0 or less every attempt is treated as
    not locked. *)
Definition notLocked (cfg : TConfig) (now : Z) (users : Users)
    (username : string) : option Error :=
  if negb (lockoutEnabled cfg) then None else
  match users !! username with
  | Some r =>
      match account_lockout_expires_at r, failed_login_count r with
      | Some expires, Some count =>
          if bool_decide (now < expires)
             && bool_decide (AccountLockoutThreshold cfg ≤ count)
          then Some (lockedError cfg)
          else None
      | _, _ => None
      end
  | None => None
  end.

(** Modelled from the spec: [isFailedLoginCountSet] (not among the sources;
    [Test_isFailedLoginCountSet] is). *)
Definition isFailedLoginCountSet (users : Users) (username : string) : bool :=
  match users !! username with
  | Some r => bool_decide (is_Some (failed_login_count r))
  | None => false
  end.

(** Modelled from the spec: [setFailedLoginCount] (not among the sources;
    [Test_setFailedLoginCount] is). *)
Definition setFailedLoginCount (users : Users) (username : string)
    (value : Z) : Users :=
  alter (fun r => {| failed_login_count := Some value;
                     account_lockout_expires_at := account_lockout_expires_at r |})
        username users.

(** Modelled from the spec: [incrementFailedLoginCount] (not among the
    sources; [Test_incrementFailedLoginCount] is): the counter goes up by
    one, an absent counter counting as zero. *)
Definition incrementFailedLoginCount (users : Users) (username : string) : Users :=
  alter (fun r => {| failed_login_count :=
                       Some (default 0 (failed_login_count r) + 1);
                     account_lockout_expires_at := account_lockout_expires_at r |})
        username users.

(** Modelled from the spec: [setLockoutExpiration] (not among the sources;
    [Test_setLockoutExpiration] is): with lockout in force, once the
    counter has reached the threshold the expiry is set to [now] plus the
    lockout duration; with a threshold of 0 or less nothing is written. *)
Definition setLockoutExpiration (cfg : TConfig) (now : Z) (users : Users)
    (username : string) : Users :=
  if negb (lockoutEnabled cfg) then users else
  alter (fun r =>
           match failed_login_count r with
           | Some count =>
               if bool_decide (AccountLockoutThreshold cfg ≤ count) then
                 {| failed_login_count := failed_login_count r;
                    account_lockout_expires_at :=
                      Some (now + AccountLockoutDuration cfg * minute) |}
               else r
           | None => r
           end)
        username users.

(** Modelled from the spec: the transition on a failed password check
    (section 4.2; [handleFailedLoginAttempt] is not among the sources):
    "if [isFailedLoginCountSet] is false, initialize counter to 1; else
    increment. If the post-increment count reaches the configured
    threshold, set [_account_lockout_expires_at]"; and "a threshold of 0
    or negative disables lockout entirely": then there is no transition. *)
Definition handleFailedLoginAttempt (cfg : TConfig) (now : Z) (users : Users)
    (username : string) : Users :=
  if negb (lockoutEnabled cfg) then users else
  let users :=
    if isFailedLoginCountSet users username
    then incrementFailedLoginCount users username
    else setFailedLoginCount users username 1 in
  setLockoutExpiration cfg now users username.

(** The fixtures of the tests: threshold 3, duration 5 minutes, user joe. *)
Definition testConfig : TConfig :=
  {| AppID := "test"; MasterKey := "test"; ClientKey := "";
     AccountLockoutThreshold := 3; AccountLockoutDuration := 5 |}.

(** The same configuration with another threshold. *)
Definition withThreshold (threshold : Z) : TConfig :=
  {| AppID := "test"; MasterKey := "test"; ClientKey := "";
     AccountLockoutThreshold := threshold; AccountLockoutDuration := 5 |}.

Definition joe (count : option Z) (expires : option Z) : Users :=
  {["joe" := {| failed_login_count := count;
                account_lockout_expires_at := expires |}]}.

End AccountLockout.

(* ===================================================================== *)
(** ** Library functions used by the controller                           *)
(* ===================================================================== *)
Module strings.

(** [strings.HasPrefix(s, prefix)] *)
Definition HasPrefix (s prefix : string) : bool := String.prefix prefix s.

(** [strings.HasSuffix(s, suffix)] *)
Definition HasSuffix (s suffix : string) : bool :=
  let n := String.length s in
  let k := String.length suffix in
  (k <=? n)%nat && String.eqb (String.substring (n - k) k s) suffix.

Definition lowerByte (c : Ascii.ascii) : Ascii.ascii :=
  let n := Ascii.N_of_ascii c in
  if (65 <=? n)%N && (n <=? 90)%N then Ascii.ascii_of_N (n + 32) else c.

(** [strings.ToLower] on strings of ASCII bytes: bytes outside [A-Z] are
    kept. *)
Fixpoint ToLower (s : string) : string :=
  match s with
  | EmptyString => EmptyString
  | String c r => String (lowerByte c) (ToLower r)
  end.

(** [strings.Split(s, sep)] for a separator of one byte: the pieces between
    the separators, one piece more than there are separators. *)
Fixpoint Split (s : string) (sep : Ascii.ascii) : list string :=
  match s with
  | EmptyString => [EmptyString]
  | String c r =>
      if Ascii.eqb c sep then EmptyString :: Split r sep
      else match Split r sep with
           | piece :: pieces => String c piece :: pieces
           | [] => [String c EmptyString]
           end
  end.

(** Whether the byte occurs in the string ([strings.IndexByte(s, c) >= 0]). *)
Fixpoint hasByte (c : Ascii.ascii) (s : string) : bool :=
  match s with
  | EmptyString => false
  | String b r => Ascii.eqb b c || hasByte c r
  end.

(** [s[n:len(s)]], for [n <= len(s)]. *)
Definition sliceFrom (s : string) (n : nat) : string :=
  String.substring n (String.length s - n) s.

End strings.

Module strconv.

Fixpoint digits (s : string) (acc : Z) : option Z :=
  match s with
  | EmptyString => Some acc
  | String c r =>
      let n := Z.of_N (Ascii.N_of_ascii c) in
      if (48 <=? n) && (n <=? 57) then digits r (acc * 10 + (n - 48))
      else None
  end.

Definition inInt (z : Z) : option Z :=
  if (- 2 ^ 63 <=? z) && (z <? 2 ^ 63) then Some z else None.

(** [strconv.Atoi]: an optional sign and at least one decimal digit, in the
    range of a 64-bit [int]; [None] is the error. *)
Definition Atoi (s : string) : option Z :=
  match s with
  | EmptyString => None
  | String c r =>
      if Ascii.eqb c "+"%char then
        (if String.eqb r "" then None else digits r 0 ≫= inInt)
      else if Ascii.eqb c "-"%char then
        (if String.eqb r "" then None
         else digits r 0 ≫= fun z => inInt (- z))
      else digits s 0 ≫= inInt
  end.

End strconv.

Module utils.

(** Modelled from the spec: [utils.A] (package [utils] is not among the
    sources), the conversion of a generic value to a slice: the slice when
    the value holds one, the nil slice otherwise. *)
Definition A (v : value) : option (list value) :=
  match v with
  | VSlice l => Some l
  | _ => None
  end.

(** Modelled from the spec: [utils.M] (package [utils] is not among the
    sources), the conversion of a generic value to a map: the map when the
    value holds one, the nil map otherwise. *)
Definition M (v : value) : option (gmap string value) :=
  match v with
  | VMap m => Some m
  | _ => None
  end.

(** Modelled from the spec: [utils.HasResults] (package [utils] is not
    among the sources): the response carries a non-empty ["results"]
    slice. *)
Definition HasResults (response : option (gmap string value)) : bool :=
  match A (Go.index response "results") with
  | Some (_ :: _) => true
  | _ => false
  end.

End utils.

(* ===================================================================== *)
(** ** Package controllers ([controllers/classes.go])                     *)
(* ===================================================================== *)
Module controllers.

(** What the handlers read of the request ([o.Ctx.Input], [o.GetString]).
    Header names are kept as the source spells them. *)
Record Input : Type := {
  Headers : gmap string string;
  RequestBody : option (list Byte.byte);
  URL : string;
  Params : gmap string string;      (* router parameters, [Param] *)
  Form : gmap string string;        (* query and form values, [GetString] *)
}.

(** Reading a [map[string]string]: the empty string for a missing key. *)
Definition at_ (m : gmap string string) (k : string) : string :=
  default "" (m !! k).

Definition Header (i : Input) (k : string) : string := at_ (Headers i) k.
Definition Param (i : Input) (k : string) : string := at_ (Params i) k.
Definition GetString (i : Input) (k : string) : string := at_ (Form i) k.

(** [Request.Header.Set(k, v)] *)
Definition HeaderSet (i : Input) (k v : string) : Input :=
  {| Headers := <[k := v]> (Headers i); RequestBody := RequestBody i;
     URL := URL i; Params := Params i; Form := Form i |}.

Record RequestInfo : Type := {
  AppID : string;
  MasterKey : string;
  ClientKey : string;
  SessionToken : string;
  InstallationID : string;
  ClientVersion : string;
  ClientSDK : option (gmap string string);
}.

Definition setAppID (i : RequestInfo) (v : string) : RequestInfo :=
  {| AppID := v; MasterKey := MasterKey i; ClientKey := ClientKey i;
     SessionToken := SessionToken i; InstallationID := InstallationID i;
     ClientVersion := ClientVersion i; ClientSDK := ClientSDK i |}.
Definition setMasterKey (i : RequestInfo) (v : string) : RequestInfo :=
  {| AppID := AppID i; MasterKey := v; ClientKey := ClientKey i;
     SessionToken := SessionToken i; InstallationID := InstallationID i;
     ClientVersion := ClientVersion i; ClientSDK := ClientSDK i |}.
Definition setClientKey (i : RequestInfo) (v : string) : RequestInfo :=
  {| AppID := AppID i; MasterKey := MasterKey i; ClientKey := v;
     SessionToken := SessionToken i; InstallationID := InstallationID i;
     ClientVersion := ClientVersion i; ClientSDK := ClientSDK i |}.
Definition setSessionToken (i : RequestInfo) (v : string) : RequestInfo :=
  {| AppID := AppID i; MasterKey := MasterKey i; ClientKey := ClientKey i;
     SessionToken := v; InstallationID := InstallationID i;
     ClientVersion := ClientVersion i; ClientSDK := ClientSDK i |}.
Definition setInstallationID (i : RequestInfo) (v : string) : RequestInfo :=
  {| AppID := AppID i; MasterKey := MasterKey i; ClientKey := ClientKey i;
     SessionToken := SessionToken i; InstallationID := v;
     ClientVersion := ClientVersion i; ClientSDK := ClientSDK i |}.
Definition setClientSDK (i : RequestInfo) (v : option (gmap string string))
    : RequestInfo :=
  {| AppID := AppID i; MasterKey := MasterKey i; ClientKey := ClientKey i;
     SessionToken := SessionToken i; InstallationID := InstallationID i;
     ClientVersion := ClientVersion i; ClientSDK := v |}.

(** The fields of [ClassesController] next to the embedded
    [beego.Controller]; [Info] and [Auth] are pointers and may be nil. *)
Record ClassesController : Type := {
  Ctx : Input;
  Info : option RequestInfo;
  Auth : option rest.Auth;
  JSONBody : M;
  RawBody : option (list Byte.byte);
  ClassName : string;
  ObjectID : string;
}.

Definition setCtx (o : ClassesController) (v : Input) : ClassesController :=
  {| Ctx := v; Info := Info o; Auth := Auth o; JSONBody := JSONBody o;
     RawBody := RawBody o; ClassName := ClassName o; ObjectID := ObjectID o |}.
Definition setInfo (o : ClassesController) (v : option RequestInfo)
    : ClassesController :=
  {| Ctx := Ctx o; Info := v; Auth := Auth o; JSONBody := JSONBody o;
     RawBody := RawBody o; ClassName := ClassName o; ObjectID := ObjectID o |}.
Definition setAuth (o : ClassesController) (v : option rest.Auth)
    : ClassesController :=
  {| Ctx := Ctx o; Info := Info o; Auth := v; JSONBody := JSONBody o;
     RawBody := RawBody o; ClassName := ClassName o; ObjectID := ObjectID o |}.
Definition setJSONBody (o : ClassesController) (v : M) : ClassesController :=
  {| Ctx := Ctx o; Info := Info o; Auth := Auth o; JSONBody := v;
     RawBody := RawBody o; ClassName := ClassName o; ObjectID := ObjectID o |}.
Definition setRawBody (o : ClassesController) (v : option (list Byte.byte))
    : ClassesController :=
  {| Ctx := Ctx o; Info := Info o; Auth := Auth o; JSONBody := JSONBody o;
     RawBody := v; ClassName := ClassName o; ObjectID := ObjectID o |}.
Definition setClassName (o : ClassesController) (v : string) : ClassesController :=
  {| Ctx := Ctx o; Info := Info o; Auth := Auth o; JSONBody := JSONBody o;
     RawBody := RawBody o; ClassName := v; ObjectID := ObjectID o |}.
Definition setObjectID (o : ClassesController) (v : string) : ClassesController :=
  {| Ctx := Ctx o; Info := Info o; Auth := Auth o; JSONBody := JSONBody o;
     RawBody := RawBody o; ClassName := ClassName o; ObjectID := v |}.

(** The controller the router makes for a request: every field but the
    context is zero. *)
Definition newController (ctx : Input) : ClassesController :=
  {| Ctx := ctx; Info := None; Auth := None; JSONBody := None;
     RawBody := None; ClassName := ""; ObjectID := "" |}.

(** What [o.Data["json"]] holds when [ServeJSON] runs: an error map of
    package [errs], or a value. *)
Inductive Payload : Type :=
  | ErrorMap (code : ErrCode) (msg : string)
  | Data (v : value).

(** [errs.ErrorMessageToMap] and [errs.ErrorToMap] *)
Definition ErrorMessageToMap (code : ErrCode) (msg : string) : Payload :=
  ErrorMap code msg.
Definition ErrorToMap (e : Error) : Payload :=
  ErrorMap (code e) (message e).

(** The response written by [ServeJSON]; [Status] and [Location] are set
    only where the handler sets them. *)
Record Response : Type := {
  Status : option Z;
  Location : option string;
  Json : Payload;
}.

Definition json (p : Payload) : Response :=
  {| Status := None; Location := None; Json := p |}.
Definition jsonStatus (status : Z) (p : Payload) : Response :=
  {| Status := Some status; Location := None; Json := p |}.

(** A controller method on the world [W]: it returns normally with a value,
    or returns after [ServeJSON] has written the response, or panics. *)
Inductive reply (W A : Type) : Type :=
  | Next (a : A) (w : W)
  | Served (r : Response) (w : W)
  | Crash.
Arguments Next {W A} a w.
Arguments Served {W A} r w.
Arguments Crash {W A}.

Definition ctl (W A : Type) : Type := W → reply W A.

#[global] Instance ctl_bind {W} : MBind (ctl W) := fun _ _ f m w =>
  match m w with
  | Next a w1 => f a w1
  | Served r w1 => Served r w1
  | Crash => Crash
  end.

Definition ok {W A} (a : A) : ctl W A := fun w => Next a w.
Definition serve {W A} (r : Response) : ctl W A := fun w => Served r w.
Definition lift {W A} (x : outcome A) : ctl W A := fun w =>
  match x with
  | Continue a => Next a w
  | Panicked => Crash
  end.
(** Dereferencing a pointer that may be nil. *)
Definition deref {W A} (p : option A) : ctl W A := fun w =>
  match p with
  | Some a => Next a w
  | None => Crash
  end.

(** What the controller calls outside its own file: the codecs of the
    standard library and the entry points of packages [client] and [rest].
    A Go call returning [(x, err)] is a pair here; [json.Unmarshal] and
    [base64.DecodeString] answer [None] for an error. *)
Class API (W : Type) : Type := {
  json_Unmarshal : list Byte.byte → option M;
  base64_DecodeString : string → option (list Byte.byte);
  client_FromString : string → option (gmap string string);
  GetAuthForSessionToken :
    string → string → W → (option rest.Auth * option Error) * W;
  rest_Create :
    option rest.Auth → string → M → option (gmap string string) → W →
    (M * option Error) * W;
  rest_Get :
    option rest.Auth → string → string → gmap string value →
    option (gmap string string) → W → (M * option Error) * W;
  rest_Update :
    option rest.Auth → string → string → M → option (gmap string string) →
    W → (M * option Error) * W;
  rest_Find :
    option rest.Auth → string → M → gmap string value →
    option (gmap string string) → W → (M * option Error) * W;
  rest_Delete :
    option rest.Auth → string → string → option (gmap string string) → W →
    option Error * W;
}.

(** A call into package [rest] as a controller action. *)
Definition call {W A} (f : W → A * W) : ctl W A := fun w =>
  let '(a, w1) := f w in Next a w1.

(** The outcome of a controller action that has left the world [w] as it
    was. *)
Definition unchanged {W A} (w : W) (x : reply W A) : Prop :=
  match x with
  | Next _ w' | Served _ w' => w' = w
  | Crash => True
  end.

(** The request-override fields a JSON body may carry. *)
Definition reservedKeys : list string :=
  ["_ApplicationId"; "_ClientKey"; "_InstallationId"; "_SessionToken";
   "_MasterKey"; "_ContentType"].

Section Controller.
Context {W : Type} `{API W}.

Definition decodeBase64 (str : string) : string :=
  match base64_DecodeString str with
  | None => ""
  | Some data => String.string_of_list_byte data
  end.

Definition httpAuth (authorization : string) : option (gmap string string) :=
  if String.eqb authorization "" then None
  else
    let header := authorization in
    let authPrefix := "basic " in
    let match_ := strings.HasPrefix (strings.ToLower header) authPrefix in
    if match_ then
      let encodedAuth := strings.sliceFrom header (String.length authPrefix) in
      let credentials := strings.Split (decodeBase64 encodedAuth) ":"%char in
      match credentials with
      | [appID; key] =>
          let jsKeyPrefix := "javascript-key=" in
          let matchKey := strings.HasPrefix key jsKeyPrefix in
          let javascriptKey :=
            if matchKey then strings.sliceFrom key (String.length jsKeyPrefix)
            else "" in
          let masterKey := if matchKey then "" else key in
          Some (<["appId" := appID]>
                  (<["masterKey" := masterKey]>
                     (<["javascriptKey" := javascriptKey]> ∅)))
      | _ => None
      end
    else None.

(** The statement
    [if body[k] != nil { x = body[k].(string); delete(body, k) }]:
    the string taken, if any, and the body as the statement leaves it. *)
Definition consume (body : M) (k : string) : ctl W (option string * M) :=
  if Go.notNil (Go.index body k) then
    v ← lift (Go.assertString (Go.index body k));
    ok (Some v, Go.mapDelete body k)
  else ok (None, body).

Definition unauthorized : Response :=
  jsonStatus 403 (ErrorMessageToMap (Code 403) "unauthorized").

(** [Prepare], lines 54-71: the keys found in the headers. *)
Definition headerInfo (i : Input) : RequestInfo :=
  let info :=
    {| AppID := Header i "X-Parse-Application-Id";
       MasterKey := Header i "X-Parse-Master-Key";
       ClientKey := Header i "X-Parse-Client-Key";
       SessionToken := Header i "X-Parse-Session-Token";
       InstallationID := Header i "X-Parse-Installation-Id";
       ClientVersion := Header i "X-Parse-Client-Version";
       ClientSDK := None |} in
  match httpAuth (Header i "authorization") with
  | Some basicAuth =>
      let info := setAppID info (at_ basicAuth "appId") in
      let info :=
        if negb (String.eqb (at_ basicAuth "masterKey") "")
        then setMasterKey info (at_ basicAuth "masterKey") else info in
      if negb (String.eqb (at_ basicAuth "javascriptKey") "")
      then setClientKey info (at_ basicAuth "javascriptKey") else info
  | None => info
  end.

(** [Prepare], lines 73-96: the body is decoded as JSON; a body that does
    not decode is an error for a JSON content type and the raw body
    otherwise. *)
Definition parseBody (o : ClassesController) : ctl W ClassesController :=
  match RequestBody (Ctx o) with
  | Some body =>
      let contentType := Header (Ctx o) "Content-type" in
      if strings.HasPrefix contentType "application/json" then
        match json_Unmarshal body with
        | None => serve (json (ErrorMessageToMap InvalidJSON "invalid JSON"))
        | Some object => ok (setJSONBody o object)
        end
      else
        match json_Unmarshal body with
        | None => ok (setRawBody o (Some body))
        | Some object => ok (setJSONBody o object)
        end
  | None => ok o
  end.

(** [Prepare], lines 98-104. *)
Definition dropNoBody (o : ClassesController) : ClassesController :=
  if Go.present (JSONBody o) then
    setJSONBody o
      (Go.mapDelete (Go.mapDelete (JSONBody o) "_noBody") "_RevocableSession")
  else o.

(** [Prepare], lines 106-141: without an application id from the headers,
    the keys are taken from the body. *)
Definition bodyInfo (info : RequestInfo) (o : ClassesController)
    : ctl W (RequestInfo * ClassesController) :=
  if String.eqb (AppID info) "" then
    let o :=
      if Go.present (JSONBody o)
      then setJSONBody o (Go.mapDelete (JSONBody o) "_RevocableSession")
      else o in
    if Go.present (JSONBody o)
       && Go.notNil (Go.index (JSONBody o) "_ApplicationId") then
      appID ← lift (Go.assertString (Go.index (JSONBody o) "_ApplicationId"));
      let info := setAppID info appID in
      let body := Go.mapDelete (JSONBody o) "_ApplicationId" in
      '(v, body) ← consume body "_ClientKey";
      let info := from_option (setClientKey info) info v in
      '(v, body) ← consume body "_InstallationId";
      let info := from_option (setInstallationID info) info v in
      '(v, body) ← consume body "_SessionToken";
      let info := from_option (setSessionToken info) info v in
      '(v, body) ← consume body "_MasterKey";
      let info := from_option (setMasterKey info) info v in
      '(v, body) ← consume body "_ContentType";
      let o := from_option
                 (fun v => setCtx o (HeaderSet (Ctx o) "Content-type" v)) o v in
      ok (info, setJSONBody o body)
    else serve unauthorized
  else ok (info, o).

(** [Prepare], lines 143-145. *)
Definition sdkInfo (info : RequestInfo) : RequestInfo :=
  if negb (String.eqb (ClientVersion info) "")
  then setClientSDK info (client_FromString (ClientVersion info))
  else info.

(** [Prepare], lines 147-153: a [base64] field is a file upload. *)
Definition fileBody (o : ClassesController) : ctl W ClassesController :=
  if Go.present (JSONBody o)
     && Go.notNil (Go.index (JSONBody o) "base64") then
    s ← lift (Go.assertString (Go.index (JSONBody o) "base64"));
    match base64_DecodeString s with
    | Some data => ok (setRawBody o (Some data))
    | None => ok o
    end
  else ok o.

(** [Prepare], lines 54-153: the credentials the request supplies, and
    the controller with its bodies filled in. *)
Definition credentials (o : ClassesController)
    : ctl W (RequestInfo * ClassesController) :=
  let info := headerInfo (Ctx o) in
  o ← parseBody o;
  let o := dropNoBody o in
  '(info, o) ← bodyInfo info o;
  let info := sdkInfo info in
  o ← fileBody o;
  ok (info, o).

Definition masterAuth (info : RequestInfo) : rest.Auth :=
  {| rest.InstallationID := InstallationID info; rest.IsMaster := true;
     rest.User := None; rest.UserRoles := [] |}.

Definition anonymousAuth (info : RequestInfo) : rest.Auth :=
  {| rest.InstallationID := InstallationID info; rest.IsMaster := false;
     rest.User := None; rest.UserRoles := [] |}.

(** [Prepare], lines 155-190: the credentials are checked and the
    [rest.Auth] of the request is built. *)
Definition authorize (cfg : config.TConfig) (info : RequestInfo)
    (o : ClassesController) : ctl W ClassesController :=
  let o := setInfo o (Some info) in
  if negb (String.eqb (AppID info) (config.AppID cfg)) then
    serve unauthorized
  else if String.eqb (MasterKey info) (config.MasterKey cfg) then
    ok (setAuth o (Some (masterAuth info)))
  else if negb (String.eqb (ClientKey info) (config.ClientKey cfg)) then
    serve unauthorized
  else
    let url := URL (Ctx o) in
    (* [o.Info] and [info] are one object: clearing the token shows in both *)
    let info :=
      if strings.HasSuffix url "/login/" then setSessionToken info "" else info in
    let o := setInfo o (Some info) in
    if String.eqb (SessionToken info) "" then
      ok (setAuth o (Some (anonymousAuth info)))
    else
      '(auth, err) ← call (GetAuthForSessionToken (SessionToken info)
                              (InstallationID info));
      let o := setAuth o auth in
      match err with
      | Some err => serve (json (ErrorToMap err))
      | None => ok o
      end.

(** [Prepare] runs before every handler; the handler runs only when
    [Prepare] returns without having served a response. *)
Definition Prepare (cfg : config.TConfig) (o : ClassesController)
    : ctl W ClassesController :=
  '(info, o) ← credentials o;
  authorize cfg info o.

(** [o.ClassName] and [o.ObjectID] default to the router parameters. *)
Definition withClassName (o : ClassesController) : ClassesController :=
  if String.eqb (ClassName o) "" then setClassName o (Param (Ctx o) ":className")
  else o.
Definition withObjectID (o : ClassesController) : ClassesController :=
  if String.eqb (ObjectID o) "" then setObjectID o (Param (Ctx o) ":objectId")
  else o.

(** [if o.GetString(k) != "" { options[k] = o.GetString(k) }] *)
Definition optionString (o : ClassesController) (k : string)
    (options : gmap string value) : gmap string value :=
  if negb (String.eqb (GetString (Ctx o) k) "")
  then <[k := VString (GetString (Ctx o) k)]> options
  else options.

(** A [types.M] stored in an [interface{}]. *)
Definition ofMap (m : M) : value :=
  match m with
  | Some m => VMap m
  | None => VNil
  end.

Definition HandleCreate (o : ClassesController) : ctl W ClassesController :=
  let o := withClassName o in
  if negb (Go.present (JSONBody o)) then
    serve (json (ErrorMessageToMap InvalidJSON "request body is empty"))
  else
    info ← deref (Info o);
    '(result, err) ← call (rest_Create (Auth o) (ClassName o) (JSONBody o)
                              (ClientSDK info));
    match err with
    | Some err => serve (json (ErrorToMap err))
    | None =>
        location ← lift (Go.assertString (Go.index result "location"));
        serve {| Status := Some 201; Location := Some location;
                 Json := Data (Go.index result "response") |}
    end.

Definition HandleGet (o : ClassesController) : ctl W ClassesController :=
  let o := withClassName o in
  let o := withObjectID o in
  let options := ∅ in
  let options := optionString o "keys" options in
  let options := optionString o "include" options in
  info ← deref (Info o);
  '(response, err) ← call (rest_Get (Auth o) (ClassName o) (ObjectID o) options
                              (ClientSDK info));
  match err with
  | Some err => serve (json (ErrorToMap err))
  | None =>
      let results := utils.A (Go.index response "results") in
      if negb (Go.present results)
         && (length (default [] results) =? 0)%nat then
        serve (json (ErrorMessageToMap ObjectNotFound "Object not found."))
      else
        first ← deref (default [] results !! 0%nat);
        let result := utils.M first in
        result ←
          (if String.eqb (ClassName o) "_User" then
             let result := Go.mapDelete result "sessionToken" in
             auth ← deref (Auth o);
             if Go.present (rest.User auth) then
               objectId ← lift (Go.assertString (Go.index result "objectId"));
               userId ← lift (Go.assertString
                                (Go.index (rest.User auth) "objectId"));
               if String.eqb objectId userId then
                 info ← deref (Info o);
                 lift (Go.mapSet result "sessionToken"
                         (VString (SessionToken info)))
               else ok result
             else ok result
           else ok result);
        serve (json (Data (ofMap result)))
  end.

Definition HandleUpdate (o : ClassesController) : ctl W ClassesController :=
  let o := withClassName o in
  let o := withObjectID o in
  if negb (Go.present (JSONBody o)) then
    serve (json (ErrorMessageToMap InvalidJSON "request body is empty"))
  else
    info ← deref (Info o);
    '(result, err) ← call (rest_Update (Auth o) (ClassName o) (ObjectID o)
                              (JSONBody o) (ClientSDK info));
    match err with
    | Some err => serve (json (ErrorToMap err))
    | None => serve (json (Data (Go.index result "response")))
    end.

(** The body of the loop over the results of a Find; the maps are updated
    in place, so the response served carries the updated rows. *)
Definition refreshToken (o : ClassesController) (v : value)
    : ctl W value :=
  let result := utils.M v in
  if Go.notNil (Go.index result "sessionToken") then
    info ← deref (Info o);
    if negb (String.eqb (SessionToken info) "") then
      result ← lift (Go.mapSet result "sessionToken"
                       (VString (SessionToken info)));
      ok (ofMap result)
    else ok v
  else ok v.

Fixpoint refreshTokens (o : ClassesController) (results : list value)
    : ctl W (list value) :=
  match results with
  | [] => ok []
  | v :: rest =>
      v ← refreshToken o v;
      rest ← refreshTokens o rest;
      ok (v :: rest)
  end.

(** [if i, err := strconv.Atoi(o.GetString(k)); err == nil] ... *)
Definition optionInt (o : ClassesController) (k msg : string)
    (options : gmap string value) : ctl W (gmap string value) :=
  match strconv.Atoi (GetString (Ctx o) k) with
  | Some i => ok (<[k := VInt i]> options)
  | None => serve (json (ErrorMessageToMap InvalidQuery msg))
  end.

Definition HandleFind (o : ClassesController) : ctl W ClassesController :=
  let o := withClassName o in
  let options := ∅ in
  options ← (if negb (String.eqb (GetString (Ctx o) "skip") "")
             then optionInt o "skip" "skip should be int" options
             else ok options);
  options ← (if negb (String.eqb (GetString (Ctx o) "limit") "")
             then optionInt o "limit" "limit should be int" options
             else ok (<["limit" := VInt 100]> options));
  let options := optionString o "order" options in
  let options :=
    if negb (String.eqb (GetString (Ctx o) "count") "")
    then <["count" := VBool true]> options else options in
  let options := optionString o "keys" options in
  let options := optionString o "include" options in
  let options := optionString o "redirectClassNameForKey" options in
  where_ ←
    (if negb (String.eqb (GetString (Ctx o) "where") "") then
       match json_Unmarshal
               (String.list_byte_of_string (GetString (Ctx o) "where")) with
       | None => serve (json (ErrorMessageToMap InvalidJSON
                                "where should be valid json"))
       | Some where_ => ok where_
       end
     else ok (Some ∅));
  info ← deref (Info o);
  '(response, err) ← call (rest_Find (Auth o) (ClassName o) where_ options
                              (ClientSDK info));
  match err with
  | Some err => serve (json (ErrorToMap err))
  | None =>
      response ←
        (if utils.HasResults response then
           let results := utils.A (Go.index response "results") in
           results ← refreshTokens o (default [] results);
           ok ((<["results" := VSlice results]>) <$> response)
         else ok response);
      serve (json (Data (ofMap response)))
  end.

Definition HandleDelete (o : ClassesController) : ctl W ClassesController :=
  let o := withClassName o in
  let o := withObjectID o in
  info ← deref (Info o);
  err ← call (rest_Delete (Auth o) (ClassName o) (ObjectID o) (ClientSDK info));
  match err with
  | Some err => serve (json (ErrorToMap err))
  | None => serve (json (Data (VMap ∅)))
  end.

Definition methodNotAllowed : ctl W ClassesController :=
  serve (jsonStatus 405 (ErrorMessageToMap (Code 405) "Method Not Allowed")).

Definition Get (o : ClassesController) := methodNotAllowed.
Definition Post (o : ClassesController) := methodNotAllowed.
Definition Delete (o : ClassesController) := methodNotAllowed.
Definition Put (o : ClassesController) := methodNotAllowed.

(** One request, as the router runs it: [Prepare], then the handler
    unless [Prepare] has already served the response. *)
Definition Serve (cfg : config.TConfig)
    (handler : ClassesController → ctl W ClassesController)
    (o : ClassesController) : ctl W ClassesController :=
  o ← Prepare cfg o;
  handler o.

End Controller.

(** What the loop of [HandleFind] does to one result, given the session
    token of the request: a row that carries a [sessionToken] gets the token
    of the request, when the request has one; anything else is kept. *)
Definition withRequestToken (token : string) (v : value) : value :=
  match v with
  | VMap m =>
      if Go.notNil (Go.index (Some m) "sessionToken")
         && negb (String.eqb token "")
      then VMap (<["sessionToken" := VString token]> m)
      else v
  | _ => v
  end.

(** The response of a Find after that loop. *)
Definition refreshedResponse (token : string) (response : M) : M :=
  if utils.HasResults response then
    (<["results" :=
         VSlice (map (withRequestToken token)
                     (default [] (utils.A (Go.index response "results"))))]>)
      <$> response
  else response.

(** The [objectId] of the user of the request, if the request has a user. *)
Definition requesterId (o : ClassesController) : option value :=
  match Auth o with
  | Some auth =>
      match rest.User auth with
      | Some user => user !! "objectId"
      | None => None
      end
  | None => None
  end.

End controllers.

(** ** A small world to run the controller on *)
Module controllersExample.
Import controllers.

(** The world of the example: the bodies [rest.Create] has been handed,
    latest first. *)
Definition Log : Type := list M.

(** A JSON text written with ['] where JSON has the double quote. *)
Definition jsonText (s : string) : list Byte.byte :=
  map (fun b => if Byte.eqb b Byte.x27 then Byte.x22 else b)
      (String.list_byte_of_string s).

(** The two documents the decoder of the example knows, and their
    decodings. *)
Definition scoreText : list Byte.byte :=
  jsonText "{'_ClientKey':'other','score':5}".

Definition scoreDocument : gmap string value :=
  <["_ClientKey" := VString "other"]> (<["score" := VInt 5]> ∅).

Definition keysText : list Byte.byte :=
  jsonText "{'_ApplicationId':'app','_ClientKey':'ck','_noBody':true,'score':5}".

Definition keysDocument : gmap string value :=
  <["_ApplicationId" := VString "app"]>
    (<["_ClientKey" := VString "ck"]>
       (<["_noBody" := VBool true]> (<["score" := VInt 5]> ∅))).

Definition created : gmap string value :=
  <["response" := VMap (<["objectId" := VString "g1"]> ∅)]>
    (<["location" := VString "/classes/Game/g1"]> ∅).

(** Modelled from the spec: the collaborators of the controller (packages
    [rest] and [client] are not among the sources, [encoding/json] and
    [encoding/base64] are libraries).  The decoder knows [scoreText] and
    [keysText] and rejects every other body; no session exists; [rest.Create] records the
    body it is handed; [rest.Get] and [rest.Find] answer [found] without an
    error, whatever they are asked. *)
Definition exampleAPI (found : M) : API Log := {|
  json_Unmarshal b :=
    if String.eqb (String.string_of_list_byte b)
                  (String.string_of_list_byte scoreText)
    then Some (Some scoreDocument)
    else if String.eqb (String.string_of_list_byte b)
                       (String.string_of_list_byte keysText)
    then Some (Some keysDocument)
    else None;
  base64_DecodeString _ := None;
  client_FromString _ := None;
  GetAuthForSessionToken _ _ w :=
    ((None, Some (E (Code 209) "invalid session token")), w);
  rest_Create _ _ body _ w := ((Some created, None), body :: w);
  rest_Get _ _ _ _ _ w := ((found, None), w);
  rest_Update _ _ _ _ _ w := ((Some ∅, None), w);
  rest_Find _ _ _ _ _ w := ((found, None), w);
  rest_Delete _ _ _ _ w := (None, w);
|}.

Definition exampleConfig : config.TConfig :=
  {| config.AppID := "app"; config.MasterKey := "mk"; config.ClientKey := "ck";
     config.AccountLockoutThreshold := 3; config.AccountLockoutDuration := 5 |}.

(** A request with the application id and the client key in its headers. *)
Definition request (contentType : string) (body : option (list Byte.byte))
    (className : string) : Input :=
  {| Headers := <["X-Parse-Application-Id" := "app"]>
                  (<["X-Parse-Client-Key" := "ck"]>
                     (<["Content-type" := contentType]> ∅));
     RequestBody := body; URL := "/classes/" +:+ className;
     Params := <[":className" := className]> ∅; Form := ∅ |}.

(** A request with the master key, a client key that is not the configured
    one, and a session token. *)
Definition masterRequest : Input :=
  {| Headers := <["X-Parse-Application-Id" := "app"]>
                  (<["X-Parse-Master-Key" := "mk"]>
                     (<["X-Parse-Client-Key" := "not-ck"]>
                        (<["X-Parse-Session-Token" := "r:any"]>
                           (<["X-Parse-Installation-Id" := "i1"]> ∅))));
     RequestBody := None; URL := "/classes/Game";
     Params := <[":className" := "Game"]> ∅; Form := ∅ |}.

(** A request that carries its keys in the JSON body [keysText]. *)
Definition bodyKeysRequest : Input :=
  {| Headers := <["Content-type" := "application/json"]> ∅;
     RequestBody := Some keysText; URL := "/classes/Game";
     Params := <[":className" := "Game"]> ∅; Form := ∅ |}.

(** A controller as [Prepare] leaves it for user [u1] holding the session
    token [r:current]. *)
Definition userInfo : RequestInfo :=
  {| AppID := "app"; MasterKey := ""; ClientKey := "ck";
     SessionToken := "r:current"; InstallationID := ""; ClientVersion := "";
     ClientSDK := None |}.

Definition userAuth : rest.Auth :=
  {| rest.IsMaster := false; rest.InstallationID := "";
     rest.User := Some (<["objectId" := VString "u1"]> ∅);
     rest.UserRoles := [] |}.

Definition prepared (className objectId : string) : ClassesController :=
  {| Ctx := request "" None className; Info := Some userInfo;
     Auth := Some userAuth; JSONBody := None; RawBody := None;
     ClassName := className; ObjectID := objectId |}.

(** A controller as [Prepare] leaves it for a request with the master key
    and no session token. *)
Definition preparedMaster (className : string) : ClassesController :=
  {| Ctx := request "" None className;
     Info := Some (setSessionToken (setMasterKey userInfo "mk") "");
     Auth := Some {| rest.IsMaster := true; rest.InstallationID := "";
                     rest.User := None; rest.UserRoles := [] |};
     JSONBody := None; RawBody := None;
     ClassName := className; ObjectID := "" |}.

Definition userRow (objectId token : string) : value :=
  VMap (<["objectId" := VString objectId]>
          (<["sessionToken" := VString token]> ∅)).

(** Two rows of [_User] as the store keeps them. *)
Definition twoUsers : M :=
  Some (<["results" := VSlice [userRow "u1" "r:stored1"; userRow "u2" "r:stored2"]]> ∅).

(** The row of [u1] alone. *)
Definition oneUser : M :=
  Some (<["results" := VSlice [userRow "u1" "r:stored1"]]> ∅).

(** A response with a results slice that is empty but not nil. *)
Definition noResults : M := Some (<["results" := VSlice []]> ∅).

End controllersExample.

(** ** A recording world to run the controller on *)
Module controllersStub.
Import controllers.

(** The calls the controller makes into package [rest], as the recording
    world logs them, latest first. *)
Inductive Call : Type :=
  | SessionLookup (sessionToken installationID : string)
  | Created (className : string) (body : M)
  | Fetched (className objectId : string) (options : gmap string value)
  | Updated (className objectId : string) (body : M)
  | Found (className : string) (where_ : M) (options : gmap string value)
  | Deleted (className objectId : string).

(** What the stubbed collaborators answer: the JSON texts the decoder knows
    with their decodings, the base64 texts it knows with theirs, the answer
    of the session lookup and the answer of every call into [rest]. *)
Record Stub : Type := {
  documents : list (string * M);
  encodings : list (string * string);
  session : option rest.Auth * option Error;
  answer : M * option Error;
}.

Fixpoint assoc {A} (k : string) (l : list (string * A)) : option A :=
  match l with
  | [] => None
  | (k', a) :: l => if String.eqb k k' then Some a else assoc k l
  end.

(** Modelled from the spec: the collaborators of the controller (packages
    [rest] and [client] are not among the sources, [encoding/json] and
    [encoding/base64] are libraries), as stubs that answer from the tables of
    [Stub] and log every call into [rest]. *)
Definition stubAPI (s : Stub) : API (list Call) := {|
  json_Unmarshal b := assoc (String.string_of_list_byte b) (documents s);
  base64_DecodeString t := String.list_byte_of_string <$> assoc t (encodings s);
  client_FromString _ := None;
  GetAuthForSessionToken token installation w :=
    (session s, SessionLookup token installation :: w);
  rest_Create _ cls body _ w := (answer s, Created cls body :: w);
  rest_Get _ cls id options _ w := (answer s, Fetched cls id options :: w);
  rest_Update _ cls id body _ w := (answer s, Updated cls id body :: w);
  rest_Find _ cls where_ options _ w := (answer s, Found cls where_ options :: w);
  rest_Delete _ cls id _ w := (snd (answer s), Deleted cls id :: w);
|}.

(** A stub that knows one JSON text and one base64 text. *)
Definition stub (text : string) (document : M) (encoded decoded : string)
    (answer : M * option Error) : Stub :=
  {| documents := [(String.string_of_list_byte (controllersExample.jsonText text),
                    document)];
     encodings := [(encoded, decoded)];
     session := (None, Some (E (Code 209) "invalid session token"));
     answer := answer |}.

(** A request with the given headers, body and query values on class
    [Game]. *)
Definition requestWith (headers : gmap string string)
    (body : option (list Byte.byte)) (url : string) (form : gmap string string)
    : Input :=
  {| Headers := headers; RequestBody := body; URL := url;
     Params := <[":className" := "Game"]> (<[":objectId" := "g1"]> ∅);
     Form := form |}.

(** The headers of a client of application [app] with client key [ck]. *)
Definition clientHeaders : gmap string string :=
  <["X-Parse-Application-Id" := "app"]> (<["X-Parse-Client-Key" := "ck"]> ∅).

(** A stub without tables. *)
Definition bare : Stub :=
  {| documents := []; encodings := [];
     session := (None, Some (E (Code 209) "invalid session token"));
     answer := (None, None) |}.

(** A body whose [_MasterKey] is a number. *)
Definition malformedStub : Stub :=
  stub "{'_ApplicationId':'app','_MasterKey':5}"
    (Some (<["_ApplicationId" := VString "app"]> (<["_MasterKey" := VInt 5]> ∅)))
    "" "" (None, None).

Definition malformedRequest : Input :=
  requestWith (<["Content-type" := "application/json"]> ∅)
    (Some (controllersExample.jsonText "{'_ApplicationId':'app','_MasterKey':5}"))
    "/classes/Game" ∅.

(** A login that still carries the session token of an earlier session. *)
Definition loginRequest : Input :=
  requestWith (<["X-Parse-Session-Token" := "r:old"]> clientHeaders)
    None "/login/" ∅.

(** A file upload: the field [base64] holds the base64 text of [hi]. *)
Definition uploadStub : Stub :=
  stub "{'base64':'aGk='}" (Some (<["base64" := VString "aGk="]> ∅))
    "aGk=" "hi" (None, None).

Definition uploadRequest : Input :=
  requestWith (<["Content-type" := "application/json"]> clientHeaders)
    (Some (controllersExample.jsonText "{'base64':'aGk='}"))
    "/files/hi.txt" ∅.

(** A body of plain text. *)
Definition textRequest : Input :=
  requestWith (<["Content-type" := "text/plain"]> clientHeaders)
    (Some (controllersExample.jsonText "hello")) "/classes/Game" ∅.

(** A controller as [Prepare] leaves it for a client without a session,
    with the given query values. *)
Definition queried (form : gmap string string) : ClassesController :=
  {| Ctx := requestWith clientHeaders None "/classes/Game" form;
     Info := Some {| AppID := "app"; MasterKey := ""; ClientKey := "ck";
                     SessionToken := ""; InstallationID := "";
                     ClientVersion := ""; ClientSDK := None |};
     Auth := Some {| rest.IsMaster := false; rest.InstallationID := "";
                     rest.User := None; rest.UserRoles := [] |};
     JSONBody := None; RawBody := None; ClassName := ""; ObjectID := "" |}.

(** A row of [_User] that holds no [objectId]. *)
Definition namesOnly : M :=
  Some (<["results" := VSlice [VMap (<["username" := VString "joe"]> ∅)]]> ∅).

End controllersStub.

(* ===================================================================== *)
(** ** Package authdatamanager ([authdatamanager/request.go])             *)
(* ===================================================================== *)
Module authdatamanager.

(** The library calls of [request], on a world [W] that holds the network:
    [http.NewRequest], [Header.Set], [http.DefaultClient.Do] (answering the
    body of the response), [ioutil.ReadAll], [Body.Close] and
    [json.Unmarshal] into a [types.M].  A call that returns [(x, err)]
    answers [inl err] or [inr x]. *)
Class Net (W Request Body : Type) : Type := {
  http_NewRequest : string → string → Error + Request;
  Header_Set : Request → string → string → Request;
  client_Do : Request → W → (Error + Body) * W;
  ioutil_ReadAll : Body → W → (Error + list Byte.byte) * W;
  Body_Close : Body → W → W;
  json_Unmarshal : list Byte.byte → Error + M;
}.

Section Request.
Context {W Request Body : Type} `{Net W Request Body}.

(** The request with the headers set.  Go ranges over the map in an
    unspecified order; the fold visits the keys in the order of [gmap]. *)
Definition withHeaders (request : Request) (headers : gmap string string)
    : Request :=
  map_fold (fun k v request => Header_Set request k v) request headers.

(** [request(path, headers)]: the result and the error, and the world as the
    deferred [Close] leaves it. *)
Definition request (path : string) (headers : gmap string string) (w : W)
    : (M * option Error) * W :=
  match http_NewRequest "GET" path with
  | inl err => ((None, Some err), w)
  | inr request =>
      let request := withHeaders request headers in
      match client_Do request w with
      | (inl err, w) => ((None, Some err), w)
      | (inr body, w) =>
          let '(returned, w) :=
            match ioutil_ReadAll body w with
            | (inl err, w) => ((None, Some err), w)
            | (inr bytes, w) =>
                match json_Unmarshal bytes with
                | inl err => ((None, Some err), w)
                | inr result => ((result, None), w)
                end
            end in
          (* defer response.Body.Close() *)
          (returned, Body_Close body w)
      end
  end.

End Request.

End authdatamanager.

(** ** A network to run [request] on *)
Module netExample.
Import authdatamanager.

(** The world of the example: the bodies still open and the bodies closed. *)
Record Sockets : Type := { opened : list nat; closed : list nat }.

(** Modelled from the spec: the network ([net/http], [io/ioutil] and
    [encoding/json] are libraries).  Every URL but the empty one is
    accepted; the server answers body [1]; reading it fails; closing moves
    the body from the opened to the closed ones. *)
#[global] Instance failingRead : Net Sockets (string * gmap string string) nat := {|
  http_NewRequest method path :=
    if String.eqb path "" then inl (E (Code 1) "empty url")
    else inr (path, ∅);
  Header_Set request k v := (fst request, <[k := v]> (snd request));
  client_Do _ w :=
    (inr 1%nat, {| opened := 1%nat :: opened w; closed := closed w |});
  ioutil_ReadAll _ w := (inl (E (Code 2) "connection reset"), w);
  Body_Close body w :=
    {| opened := filter (fun b => b ≠ body) (opened w);
       closed := body :: closed w |};
  json_Unmarshal _ := inr None;
|}.

End netExample.

(* ===================================================================== *)
(** * Part II. Properties                                                 *)
(* ===================================================================== *)

Section DestroyFacts.
Import rest.
Context {W : Type} `{Collaborators W}.

Lemma handleSession_id (d : Destroy) (w : W) :
  handleSession d w = Continue (None, d, w).
Proof. unfold handleSession. by destruct (negb _). Qed.

Lemma runDestroy_master (d : Destroy) (w : W) :
  IsMaster (auth d) = true →
  runDestroy d w =
    Continue (None, d, (orm_Destroy (className d) (query d) ∅ w).1).
Proof.
  intros Hm. unfold runDestroy. rewrite Hm. simpl.
  by destruct (orm_Destroy _ _ _ _).
Qed.

Lemma runDestroy_restricted (d : Destroy) (w : W) :
  IsMaster (auth d) = false →
  runDestroy d w =
    acl ← aclOf (auth d);
    Continue (None, d,
      (orm_Destroy (className d) (query d) {["acl" := VStrings acl]} w).1).
Proof.
  intros Hm. unfold runDestroy, aclOf. rewrite Hm. simpl.
  destruct (User (auth d)) as [u|]; simpl.
  - destruct (u !! "objectId") as [[]|]; simpl; try done.
    by destruct (orm_Destroy _ _ _ _).
  - by destruct (orm_Destroy _ _ _ _).
Qed.

End DestroyFacts.

Section DestroyClaims.
Import rest.
Context {W : Type} `{Collaborators W}.

(** C4.  The delete a Destroy issues to the Store is a delete by query:
    [orm.Destroy] receives the class name and the query of the request,
    never an object id.  For a master caller the options are empty (no ACL
    constraint).  For any other caller the options carry, under ["acl"],
    exactly ["*"], then the caller's [objectId] and the caller's resolved
    roles when the request has a user; an identifier is in that list iff it
    is ["*"], the caller's id or one of the caller's roles. *)
Theorem runDestroy_acl_constraint (d : Destroy) (w : W) :
  runDestroy d w =
    (if IsMaster (auth d) then
       Continue (None, d, (orm_Destroy (className d) (query d) ∅ w).1)
     else
       match User (auth d) with
       | None =>
           Continue (None, d,
             (orm_Destroy (className d) (query d)
                {["acl" := VStrings ["*"]]} w).1)
       | Some u =>
           match u !! "objectId" with
           | Some (VString uid) =>
               Continue (None, d,
                 (orm_Destroy (className d) (query d)
                    {["acl" := VStrings ("*" :: uid :: UserRoles (auth d))]} w).1)
           | _ => Panicked
           end
       end)
  ∧ match aclOf (auth d) with
    | Continue acl =>
        ∀ x, x ∈ acl ↔
          x = "*" ∨
          (∃ u, User (auth d) = Some u ∧
                (u !! "objectId" = Some (VString x) ∨ x ∈ UserRoles (auth d)))
    | Panicked => True
    end.
Proof.
  split.
  - destruct (IsMaster (auth d)) eqn:Hm.
    + by apply runDestroy_master.
    + rewrite runDestroy_restricted by done. unfold aclOf.
      destruct (User (auth d)) as [u|]; [|done].
      by destruct (u !! "objectId") as [[]|].
  - unfold aclOf. destruct (User (auth d)) as [u|] eqn:Hu.
    + destruct (u !! "objectId") as [[]|] eqn:Hid; try done.
      intros x. rewrite !elem_of_cons. split.
      * intros [->|[->|Hx]]; [by left|right; exists u; auto..].
      * intros [->|(u' & [= <-] & [Hx|Hx])]; [by left|right..].
        -- left. congruence.
        -- by right.
    + intros x. rewrite list_elem_of_singleton. split; [by left|].
      by intros [->|(u' & [=] & _)].
Qed.

(** C9.  [Execute] hands no error to its caller.  Whenever it returns, the
    value returned is nil, and it returns unless the type assertion on the
    caller's [objectId] panics in [runDestroy].  Each of the five steps
    returns a nil error whatever the trigger dispatcher, role resolution or
    the Store reported. *)
Theorem Execute_returns_nil (d : Destroy) (w : W) :
  match Execute d w with
  | Continue (r, _, _) => r = None
  | Panicked =>
      ∃ d1 w1, handleUserRoles d
                 (RunTrigger TypeBeforeDelete (className d) (auth d) None
                    (originalData d) w).1 = Continue (None, d1, w1)
               ∧ IsMaster (auth d1) = false
               ∧ aclOf (auth d1) = Panicked
  end
  ∧ stepError (handleSession d w) = None
  ∧ stepError (runBeforeTrigger d w) = None
  ∧ stepError (handleUserRoles d w) = None
  ∧ stepError (runDestroy d w) = None
  ∧ stepError (runAfterTrigger d w) = None.
Proof.
  split; [|repeat split].
  - unfold Execute. rewrite handleSession_id. simpl.
    unfold runBeforeTrigger.
    destruct (RunTrigger _ _ _ _ _ w) as [w1 e1]. simpl.
    unfold handleUserRoles.
    destruct (IsMaster (auth d)) eqn:Hm; simpl.
    + rewrite runDestroy_master by done. simpl.
      unfold runAfterTrigger. by destruct (RunTrigger _ _ _ _ _ _).
    + destruct (GetUserRoles (auth d) w1) as [a w2]. simpl.
      destruct (IsMaster a) eqn:Hm2.
      * rewrite runDestroy_master by done. simpl.
        unfold runAfterTrigger. by destruct (RunTrigger _ _ _ _ _ _).
      * rewrite runDestroy_restricted by done. simpl.
        destruct (aclOf a) as [acl|] eqn:Hacl; simpl.
        -- unfold runAfterTrigger. by destruct (RunTrigger _ _ _ _ _ _).
        -- by exists (setAuth d a), w2.
  - by rewrite handleSession_id.
  - unfold runBeforeTrigger. by destruct (RunTrigger _ _ _ _ _ _).
  - unfold handleUserRoles. destruct (negb _); [|done].
    by destruct (GetUserRoles _ _).
  - destruct (IsMaster (auth d)) eqn:Hm.
    + by rewrite runDestroy_master.
    + rewrite runDestroy_restricted by done. by destruct (aclOf _).
  - unfold runAfterTrigger. by destruct (RunTrigger _ _ _ _ _ _).
Qed.

(** C2, as the code has it.  [Execute] runs the BeforeDelete hook first and
    discards what it returns: whatever error the hook reports, the remaining
    steps (role resolution, the Store delete, the AfterDelete hook) run from
    the world the hook left behind, and [Execute] returns nil. *)
Theorem Execute_discards_BeforeDelete_error (d : Destroy) (w : W) :
  Execute d w =
    (let w1 := (RunTrigger TypeBeforeDelete (className d) (auth d) None
                  (originalData d) w).1 in
     '(_, d2, w2) ← handleUserRoles d w1;
     '(_, d3, w3) ← runDestroy d2 w2;
     '(_, d4, w4) ← runAfterTrigger d3 w3;
     Continue (None, d4, w4) : outcome (M * Destroy * W)).
Proof.
  unfold Execute. rewrite handleSession_id. simpl.
  unfold runBeforeTrigger.
  by destruct (RunTrigger _ _ _ _ _ w) as [w1 e1].
Qed.

End DestroyClaims.

(** C2 fails on the code.  In the example store the BeforeDelete hook of class
    ["Locked"] returns an error; [Execute] nevertheless returns nil and the
    object is gone from the store. *)
Lemma Execute_ignores_BeforeDelete_veto :
  rest.RunTrigger rest.TypeBeforeDelete "Locked" restExample.masterAuth None
    (rest.originalData restExample.destroyO1) restExample.rows0
  = (restExample.rows0, Some restExample.vetoError)
  ∧ rest.Execute restExample.destroyO1 restExample.rows0
    = Continue (None, restExample.destroyO1, [("Locked", "o2")])
  ∧ [("Locked", "o2")] ≠ restExample.rows0.
Proof. repeat split. discriminate. Qed.

(** ** Account lockout *)
Section LockoutClaims.
Import config AccountLockout.

(** [Test_notLocked], first case: three failures, expiry five minutes
    ahead. *)
Example Test_notLocked_locked (now : Z) :
  notLocked testConfig now (joe (Some 3) (Some (now + 5 * minute))) "joe"
  = Some (E ObjectNotFound
      "Your account is locked due to multiple failed login attempts. Please try again after 5 minute(s)").
Proof.
  unfold notLocked, joe. rewrite lookup_singleton_eq. simpl.
  rewrite bool_decide_eq_true_2 by (unfold minute; lia). done.
Qed.

(** [Test_notLocked], second case: one failure only. *)
Example Test_notLocked_below_threshold (now : Z) :
  notLocked testConfig now (joe (Some 1) (Some (now + 5 * minute))) "joe" = None.
Proof.
  unfold notLocked, joe. rewrite lookup_singleton_eq. simpl.
  by rewrite andb_false_r.
Qed.

(** [Test_notLocked], third case: the expiry lies five minutes back. *)
Example Test_notLocked_expired (now : Z) :
  notLocked testConfig now (joe (Some 3) (Some (now - 5 * minute))) "joe" = None.
Proof.
  unfold notLocked, joe. rewrite lookup_singleton_eq. simpl.
  rewrite bool_decide_eq_false_2 by (unfold minute; lia). done.
Qed.

(** Lockout is in force exactly under a positive threshold. *)
Lemma lockoutEnabled_spec (cfg : TConfig) :
  lockoutEnabled cfg = true ↔ 0 < AccountLockoutThreshold cfg.
Proof. unfold lockoutEnabled. apply bool_decide_eq_true. Qed.

(** The condition under which an account is locked. *)
Lemma notLocked_cases (cfg : TConfig) (now : Z) (users : Users) (username : string) :
  let locked :=
    0 < AccountLockoutThreshold cfg
    ∧ ∃ r expires count,
        users !! username = Some r
        ∧ account_lockout_expires_at r = Some expires
        ∧ failed_login_count r = Some count
        ∧ now < expires
        ∧ AccountLockoutThreshold cfg ≤ count in
  (locked ∧ notLocked cfg now users username = Some (lockedError cfg))
  ∨ (¬ locked ∧ notLocked cfg now users username = None).
Proof.
  simpl. unfold notLocked, lockoutEnabled.
  destruct (decide (0 < AccountLockoutThreshold cfg)) as [Hpos|Hoff];
    [rewrite (bool_decide_eq_true_2 _ Hpos)
    |rewrite (bool_decide_eq_false_2 _ Hoff); right; split; [by intros [? _]|done]].
  simpl.
  destruct (users !! username) as [r|] eqn:Hr;
    [|right; split; [by intros (_ & ? & ? & ? & [=] & _)|done]].
  destruct (account_lockout_expires_at r) as [e|] eqn:He;
    [|right; split; [intros (_ & ? & ? & ? & [= <-] & ? & _); congruence|done]].
  destruct (failed_login_count r) as [c|] eqn:Hc;
    [|right; split; [intros (_ & ? & ? & ? & [= <-] & _ & ? & _); congruence|done]].
  destruct (decide (now < e)) as [Hlt|Hge].
  - destruct (decide (AccountLockoutThreshold cfg ≤ c)) as [Hle|Hgt].
    + left. rewrite !bool_decide_eq_true_2 by done.
      split; [split; [done|by exists r, e, c]|done].
    + right. rewrite (bool_decide_eq_false_2 _ Hgt), andb_false_r.
      split; [|done].
      intros (_ & r' & e' & c' & [= <-] & He' & Hc' & _ & Hle). simplify_eq. lia.
  - right. rewrite (bool_decide_eq_false_2 _ Hge). split; [|done].
    intros (_ & r' & e' & c' & [= <-] & He' & Hc' & Hlt & _). simplify_eq. lia.
Qed.

(** C3 fails on the model at a threshold of 0, where lockout is disabled:
    joe has a record with three failures and an expiry that lies ahead,
    which is the condition of the claim ([now < expires] and
    [count >= threshold]), and [notLocked] succeeds. *)
Lemma notLocked_disabled_succeeds :
  let cfg := withThreshold 0 in
  let users := joe (Some 3) (Some 400) in
  (∃ r expires count,
     users !! "joe" = Some r
     ∧ account_lockout_expires_at r = Some expires
     ∧ failed_login_count r = Some count
     ∧ 100 < expires
     ∧ AccountLockoutThreshold cfg ≤ count)
  ∧ notLocked cfg 100 users "joe" = None.
Proof.
  split; [|reflexivity].
  eexists _, 400, 3. unfold joe. rewrite lookup_singleton_eq.
  repeat split; simpl; lia.
Qed.

(** C3, with the threshold taken into account.  [notLocked] fails with
    [ObjectNotFound] and the locked-account message naming the configured
    duration exactly when the configured threshold is positive and the
    user has a record with [now < _account_lockout_expires_at] and
    [_failed_login_count >= threshold]; in every other case, an expiry in
    the past and a threshold of 0 or less included, it succeeds. *)
Theorem notLocked_iff (cfg : TConfig) (now : Z) (users : Users) (username : string) :
  let locked :=
    0 < AccountLockoutThreshold cfg
    ∧ ∃ r expires count,
        users !! username = Some r
        ∧ account_lockout_expires_at r = Some expires
        ∧ failed_login_count r = Some count
        ∧ now < expires
        ∧ AccountLockoutThreshold cfg ≤ count in
  (notLocked cfg now users username
     = Some (E ObjectNotFound
         ("Your account is locked due to multiple failed login attempts. Please try again after "
          +:+ Itoa (AccountLockoutDuration cfg) +:+ " minute(s)"))
   ↔ locked)
  ∧ (notLocked cfg now users username = None ↔ ¬ locked).
Proof.
  simpl.
  destruct (notLocked_cases cfg now users username) as [[Hl ->]|[Hn ->]].
  - split; split; done.
  - split; split; done.
Qed.

(** [Test_incrementFailedLoginCount]: a counter at 0 goes to 1. *)
Example Test_incrementFailedLoginCount_0 :
  incrementFailedLoginCount (joe (Some 0) None) "joe" = joe (Some 1) None.
Proof. unfold incrementFailedLoginCount, joe. by rewrite alter_singleton_eq. Qed.

(** [Test_setFailedLoginCount]: the counter is written as given. *)
Example Test_setFailedLoginCount_0 :
  setFailedLoginCount (joe None None) "joe" 0 = joe (Some 0) None.
Proof. unfold setFailedLoginCount, joe. by rewrite alter_singleton_eq. Qed.

(** [Test_setLockoutExpiration], first case: one failure, threshold 3. *)
Example Test_setLockoutExpiration_below (now : Z) :
  setLockoutExpiration testConfig now (joe (Some 1) None) "joe"
  = joe (Some 1) None.
Proof.
  unfold setLockoutExpiration, joe. simpl. by rewrite alter_singleton_eq.
Qed.

(** [Test_setLockoutExpiration], second case: three failures, threshold 3. *)
Example Test_setLockoutExpiration_reached (now : Z) :
  setLockoutExpiration testConfig now (joe (Some 3) None) "joe"
  = joe (Some 3) (Some (now + 5 * minute)).
Proof.
  unfold setLockoutExpiration, joe. simpl. by rewrite alter_singleton_eq.
Qed.

(** [Test_isFailedLoginCountSet], both cases. *)
Example Test_isFailedLoginCountSet_cases :
  isFailedLoginCountSet (joe None None) "joe" = false
  ∧ isFailedLoginCountSet (joe (Some 3) None) "joe" = true.
Proof. by vm_compute. Qed.

(** The boundary of section 7: with threshold 3 and duration 5 minutes,
    three failed attempts lock the account until five minutes after the
    third, and two do not. *)
Example lockout_boundary (now : Z) :
  let attempt users := handleFailedLoginAttempt testConfig now users "joe" in
  attempt (attempt (attempt (joe None None)))
  = joe (Some 3) (Some (now + 5 * minute))
  ∧ attempt (attempt (joe None None)) = joe (Some 2) None.
Proof.
  simpl. unfold handleFailedLoginAttempt, setLockoutExpiration,
    isFailedLoginCountSet, incrementFailedLoginCount, setFailedLoginCount, joe.
  simpl. rewrite !lookup_singleton_eq. simpl.
  rewrite !alter_singleton_eq. simpl.
  rewrite !lookup_singleton_eq. simpl.
  rewrite !alter_singleton_eq. simpl.
  rewrite !lookup_singleton_eq. simpl.
  by rewrite !alter_singleton_eq.
Qed.

Lemma handleFailedLoginAttempt_others (cfg : TConfig) (now : Z) (users : Users)
    (username other : string) :
  other ≠ username →
  handleFailedLoginAttempt cfg now users username !! other = users !! other.
Proof.
  intros Hne. unfold handleFailedLoginAttempt, setLockoutExpiration,
    incrementFailedLoginCount, setFailedLoginCount.
  destruct (negb (lockoutEnabled cfg)); [done|].
  rewrite lookup_alter_ne by done.
  destruct (isFailedLoginCountSet users username);
    by rewrite lookup_alter_ne.
Qed.

(** C7 fails on the model at a threshold of 0, where lockout is disabled:
    a failed password check leaves joe's record as it is, the counter not
    set where the claim has 1 and at 2 where the claim has 3. *)
Lemma handleFailedLoginAttempt_disabled_no_count :
  let cfg := withThreshold 0 in
  handleFailedLoginAttempt cfg 100 (joe None None) "joe" = joe None None
  ∧ failed_login_count
      <$> handleFailedLoginAttempt cfg 100 (joe None None) "joe" !! "joe"
    ≠ Some (Some 1)
  ∧ handleFailedLoginAttempt cfg 100 (joe (Some 2) None) "joe"
    = joe (Some 2) None
  ∧ failed_login_count
      <$> handleFailedLoginAttempt cfg 100 (joe (Some 2) None) "joe" !! "joe"
    ≠ Some (Some 3).
Proof.
  simpl. unfold handleFailedLoginAttempt, joe. simpl.
  rewrite !lookup_singleton_eq. simpl. by repeat split.
Qed.

(** C7, with the threshold taken into account.  Under a positive
    threshold a failed password check leaves the user's record with
    counter 1 when it had none and with the counter plus one otherwise;
    [_account_lockout_expires_at] becomes [now] plus the lockout duration
    exactly when the new count has reached the threshold, and keeps what it
    had (nothing, if it was unset) when the new count is below it.  Under
    a threshold of 0 or less the record is left as it is. *)
Theorem handleFailedLoginAttempt_record (cfg : TConfig) (now : Z) (users : Users)
    (username : string) :
  handleFailedLoginAttempt cfg now users username !! username
  = (fun r =>
       if bool_decide (0 < AccountLockoutThreshold cfg) then
         let count := match failed_login_count r with
                      | None => 1
                      | Some n => n + 1
                      end in
         {| failed_login_count := Some count;
            account_lockout_expires_at :=
              if bool_decide (AccountLockoutThreshold cfg ≤ count)
              then Some (now + AccountLockoutDuration cfg * minute)
              else account_lockout_expires_at r |}
       else r)
    <$> users !! username.
Proof.
  unfold handleFailedLoginAttempt, setLockoutExpiration, lockoutEnabled.
  destruct (bool_decide (0 < AccountLockoutThreshold cfg)); simpl;
    [|by destruct (users !! username)].
  unfold isFailedLoginCountSet, incrementFailedLoginCount, setFailedLoginCount.
  rewrite lookup_alter_eq.
  destruct (users !! username) as [r|] eqn:Hr.
  - destruct (failed_login_count r) as [n|] eqn:Hn.
    + rewrite bool_decide_eq_true_2 by eauto.
      rewrite lookup_alter_eq, Hr. simpl. rewrite Hn. simpl.
      by destruct (bool_decide _).
    + rewrite bool_decide_eq_false_2 by (by intros [? [=]]).
      rewrite lookup_alter_eq, Hr. simpl. rewrite Hn.
      by destruct (bool_decide _).
  - by rewrite lookup_alter_eq, Hr.
Qed.

End LockoutClaims.


(** ** The request adapter *)

(** The library functions behave as their Go originals on small inputs. *)
Example Split_examples :
  strings.Split "app:key" ":"%char = ["app"; "key"]
  ∧ strings.Split "" ":"%char = [EmptyString]
  ∧ strings.Split "a:b:c" ":"%char = ["a"; "b"; "c"]
  ∧ strings.Split "app:" ":"%char = ["app"; EmptyString].
Proof. by vm_compute. Qed.

Example HasSuffix_examples :
  strings.HasSuffix "/1/login/" "/login/" = true
  ∧ strings.HasSuffix "/1/login" "/login/" = false
  ∧ strings.HasSuffix "in/" "/login/" = false.
Proof. by vm_compute. Qed.

Example ToLower_example : strings.ToLower "Basic QXBw" = "basic qxbw".
Proof. by vm_compute. Qed.

Example Atoi_examples :
  strconv.Atoi "100" = Some 100
  ∧ strconv.Atoi "-7" = Some (-7)
  ∧ strconv.Atoi "+7" = Some 7
  ∧ strconv.Atoi "" = None
  ∧ strconv.Atoi "-" = None
  ∧ strconv.Atoi "1x" = None
  ∧ strconv.Atoi "9223372036854775808" = None.
Proof. by vm_compute. Qed.

(** When [rest.Get] answers with no results slice at all, the guard of
    [HandleGet] fires and ObjectNotFound is served. *)
Example HandleGet_nil_results_not_found :
  @controllers.HandleGet _ (controllersExample.exampleAPI (Some ∅))
    (controllersExample.prepared "Game" "nope") []
  = controllers.Served
      (controllers.json
         (controllers.ErrorMessageToMap ObjectNotFound "Object not found."))
      [].
Proof. reflexivity. Qed.

(** C6 fails on the code.  [rest.Get] answers without an error and with a
    results slice that is empty but not nil: the guard
    [results == nil && len(results) == 0] does not fire and [results[0]]
    panics, where the claim has ObjectNotFound. *)
Lemma HandleGet_empty_results_panics :
  @controllers.HandleGet _ (controllersExample.exampleAPI controllersExample.noResults)
    (controllersExample.prepared "Game" "nope") []
  = controllers.Crash.
Proof. reflexivity. Qed.


(** The same Find by a request without a session token: the rows are served
    as the store keeps them, stored tokens included. *)
Example HandleFind_without_token_serves_rows :
  @controllers.HandleFind _ (controllersExample.exampleAPI controllersExample.twoUsers)
    (controllersExample.preparedMaster "_User") []
  = controllers.Served
      (controllers.json (controllers.Data (controllers.ofMap controllersExample.twoUsers)))
      [].
Proof. vm_compute. reflexivity. Qed.

(** C8 fails on the code.  The application id comes in the headers, the
    JSON body carries [_ClientKey]: [rest.Create] is handed the body with
    [_ClientKey] still in it. *)
Lemma HandleCreate_receives_reserved_field :
  @controllers.Serve _ (controllersExample.exampleAPI None)
    controllersExample.exampleConfig
    (@controllers.HandleCreate _ (controllersExample.exampleAPI None))
    (controllers.newController
       (controllersExample.request "application/json"
          (Some controllersExample.scoreText) "Game")) []
  = controllers.Served
      {| controllers.Status := Some 201;
         controllers.Location := Some "/classes/Game/g1";
         controllers.Json :=
           controllers.Data (VMap (<["objectId" := VString "g1"]> ∅)) |}
      [Some controllersExample.scoreDocument]
  ∧ controllersExample.scoreDocument !! "_ClientKey" = Some (VString "other").
Proof. split; vm_compute; reflexivity. Qed.

Section ControllerFacts.
Import controllers.
Context {W : Type} `{API W}.

Lemma bind_Next {A B} (m : ctl W A) (f : A → ctl W B) (w w1 : W) (a : A) :
  m w = Next a w1 → (m ≫= f) w = f a w1.
Proof. intros Hm. unfold mbind, ctl_bind. by rewrite Hm. Qed.

Lemma bind_Served {A B} (m : ctl W A) (f : A → ctl W B) (w w1 : W) r :
  m w = Served r w1 → (m ≫= f) w = Served r w1.
Proof. intros Hm. unfold mbind, ctl_bind. by rewrite Hm. Qed.

Lemma bind_Crash {A B} (m : ctl W A) (f : A → ctl W B) (w : W) :
  m w = Crash → (m ≫= f) w = Crash.
Proof. intros Hm. unfold mbind, ctl_bind. by rewrite Hm. Qed.

Lemma Prepare_authorize (cfg : config.TConfig) (o o1 : ClassesController)
    (info : RequestInfo) (w w1 : W) :
  credentials o w = Next (info, o1) w1 →
  Prepare cfg o w = authorize cfg info o1 w1.
Proof. intros Hc. unfold Prepare. by rewrite (bind_Next _ _ _ _ _ Hc). Qed.

(** With the master key, the outcome of the check is fixed by the
    installation id alone. *)
Lemma authorize_master (cfg : config.TConfig) (info : RequestInfo)
    (o : ClassesController) (w : W) :
  AppID info = config.AppID cfg →
  MasterKey info = config.MasterKey cfg →
  authorize cfg info o w
  = Next (setAuth (setInfo o (Some info)) (Some (masterAuth info))) w.
Proof.
  intros Ha Hm. unfold authorize.
  rewrite (proj2 (String.eqb_eq _ _) Ha), (proj2 (String.eqb_eq _ _) Hm).
  done.
Qed.

(** Without a JSON body the phases that read it do nothing. *)
Lemma dropNoBody_nil (o : ClassesController) :
  JSONBody o = None → dropNoBody o = o.
Proof. intros Hj. unfold dropNoBody. by rewrite Hj. Qed.

Lemma bodyInfo_nil (info : RequestInfo) (o : ClassesController) (w : W) :
  JSONBody o = None →
  bodyInfo info o w
  = if String.eqb (AppID info) "" then Served unauthorized w
    else Next (info, o) w.
Proof.
  intros Hj. unfold bodyInfo. rewrite Hj. simpl. rewrite Hj. simpl.
  by destruct (String.eqb _ _).
Qed.

Lemma fileBody_nil (o : ClassesController) (w : W) :
  JSONBody o = None → fileBody o w = Next o w.
Proof. intros Hj. unfold fileBody. by rewrite Hj. Qed.

Lemma bind_Next_inv {A B} (m : ctl W A) (f : A → ctl W B) (w w' : W) (b : B) :
  (m ≫= f) w = Next b w' → ∃ a w1, m w = Next a w1 ∧ f a w1 = Next b w'.
Proof.
  unfold mbind, ctl_bind. destruct (m w) as [a w1| |]; [|done..].
  intros Hf. by exists a, w1.
Qed.

Lemma lift_Next_inv {A} (x : outcome A) (w w' : W) (a : A) :
  lift x w = Next a w' → x = Continue a ∧ w' = w.
Proof. unfold lift. destruct x; [|done]. by intros [= -> ->]. Qed.

Lemma ok_Next_inv {A} (x a : A) (w w' : W) :
  ok x w = Next a w' → a = x ∧ w' = w.
Proof. unfold ok. by intros [= -> ->]. Qed.

Lemma index_mapDelete (body : M) (k k' : string) :
  Go.index (Go.mapDelete body k) k'
  = if decide (k = k') then VNil else Go.index body k'.
Proof.
  destruct body as [m|]; simpl; [|by case_decide].
  case_decide as Hk.
  - subst. by rewrite lookup_delete_eq.
  - by rewrite lookup_delete_ne.
Qed.

Lemma assertString_inv (v : value) (s : string) :
  Go.assertString v = Continue s → v = VString s.
Proof. destruct v; simpl; congruence. Qed.

(** [consume] leaves nothing under its key, leaves the other keys alone and
    hands back the string it found. *)
Lemma consume_Next (body body' : M) (k : string) (v : option string) (w w' : W) :
  consume body k w = Next (v, body') w' →
  w' = w
  ∧ Go.index body' k = VNil
  ∧ (∀ k', k' ≠ k → Go.index body' k' = Go.index body k')
  ∧ match v with
    | Some s => Go.index body k = VString s
    | None => Go.index body k = VNil
    end.
Proof.
  unfold consume. destruct (Go.notNil (Go.index body k)) eqn:Hn.
  - intros (s & w1 & (Hs & ->)%lift_Next_inv & (Hp & ->)%ok_Next_inv)%bind_Next_inv.
    apply assertString_inv in Hs. simplify_eq. repeat split.
    + rewrite index_mapDelete. by case_decide.
    + intros k' Hk. rewrite index_mapDelete. by case_decide.
    + done.
  - intros (Hp & ->)%ok_Next_inv. simplify_eq. repeat split.
    + by destruct (Go.index body k).
    + by destruct (Go.index body k).
Qed.

Ltac chase_index :=
  repeat match goal with
    | Hk : ∀ k', k' ≠ _ → Go.index ?b k' = _ |- context [Go.index ?b ?k] =>
        rewrite (Hk k) by done
    end;
  rewrite ?index_mapDelete; repeat case_decide; try done.

(** Lines 106-141, when the headers carry no application id and the
    request is let through: every reserved key has been emptied, and the
    strings found under them are in the request info (for [_ContentType], in
    the Content-type header). *)
Lemma bodyInfo_consumes (info info' : RequestInfo) (o o' : ClassesController)
    (w w' : W) :
  AppID info = "" →
  bodyInfo info o w = Next (info', o') w' →
  w' = w
  ∧ (∀ k, k ∈ reservedKeys → Go.index (JSONBody o') k = VNil)
  ∧ Go.index (JSONBody o) "_ApplicationId" = VString (AppID info')
  ∧ (∀ v, Go.index (JSONBody o) "_ClientKey" = VString v → ClientKey info' = v)
  ∧ (∀ v, Go.index (JSONBody o) "_InstallationId" = VString v →
          InstallationID info' = v)
  ∧ (∀ v, Go.index (JSONBody o) "_SessionToken" = VString v →
          SessionToken info' = v)
  ∧ (∀ v, Go.index (JSONBody o) "_MasterKey" = VString v → MasterKey info' = v)
  ∧ (∀ v, Go.index (JSONBody o) "_ContentType" = VString v →
          Header (Ctx o') "Content-type" = v).
Proof.
  intros Ha. unfold bodyInfo. rewrite Ha. simpl.
  set (o2 := if Go.present (JSONBody o)
             then setJSONBody o (Go.mapDelete (JSONBody o) "_RevocableSession")
             else o).
  assert (Ho2 : ∀ k, k ≠ "_RevocableSession" →
                     Go.index (JSONBody o2) k = Go.index (JSONBody o) k).
  { intros k Hk. unfold o2. destruct (JSONBody o) as [m|] eqn:Hm; simpl.
    - by rewrite lookup_delete_ne.
    - by rewrite Hm. }
  destruct (Go.present (JSONBody o2)
            && Go.notNil (Go.index (JSONBody o2) "_ApplicationId")); [|done].
  intros (appID & w0 & (Happ%assertString_inv & ->)%lift_Next_inv & Hrest)%bind_Next_inv.
  apply bind_Next_inv in Hrest as ([v1 b1] & w1 & Hc1 & Hrest).
  apply consume_Next in Hc1 as (-> & Hn1 & Hk1 & Hv1).
  apply bind_Next_inv in Hrest as ([v2 b2] & w2 & Hc2 & Hrest).
  apply consume_Next in Hc2 as (-> & Hn2 & Hk2 & Hv2).
  apply bind_Next_inv in Hrest as ([v3 b3] & w3 & Hc3 & Hrest).
  apply consume_Next in Hc3 as (-> & Hn3 & Hk3 & Hv3).
  apply bind_Next_inv in Hrest as ([v4 b4] & w4 & Hc4 & Hrest).
  apply consume_Next in Hc4 as (-> & Hn4 & Hk4 & Hv4).
  apply bind_Next_inv in Hrest as ([v5 b5] & w5 & Hc5 & Hrest).
  apply consume_Next in Hc5 as (-> & Hn5 & Hk5 & Hv5).
  apply ok_Next_inv in Hrest as (Hp & ->). simplify_eq.
  rewrite Ho2 in Happ by done.
  split; [done|]. split; [|split; [|split; [|split; [|split; [|split]]]]].
  - intros k Hk. unfold reservedKeys in Hk.
    assert (Hb : JSONBody
                   (setJSONBody
                      (from_option
                         (fun v => setCtx o2 (HeaderSet (Ctx o2) "Content-type" v))
                         o2 v5) b5) = b5) by done.
    rewrite Hb.
    repeat (apply elem_of_cons in Hk as [->|Hk]); [..|by apply elem_of_nil in Hk];
      chase_index.
  - destruct v1, v2, v3, v4; simpl; done.
  - intros v Hv. rewrite <- Ho2 in Hv by done.
    destruct v1 as [s|]; revert Hv1; chase_index;
      intros Hv1; rewrite Hv in Hv1; simplify_eq;
      destruct v2, v3, v4; done.
  - intros v Hv. rewrite <- Ho2 in Hv by done.
    destruct v2 as [s|]; revert Hv2; chase_index;
      intros Hv2; rewrite Hv in Hv2; simplify_eq;
      destruct v3, v4; done.
  - intros v Hv. rewrite <- Ho2 in Hv by done.
    destruct v3 as [s|]; revert Hv3; chase_index;
      intros Hv3; rewrite Hv in Hv3; simplify_eq;
      destruct v4; done.
  - intros v Hv. rewrite <- Ho2 in Hv by done.
    destruct v4 as [s|]; revert Hv4; chase_index;
      intros Hv4; rewrite Hv in Hv4; simplify_eq; done.
  - intros v Hv. rewrite <- Ho2 in Hv by done.
    destruct v5 as [s|]; revert Hv5; chase_index;
      intros Hv5; rewrite Hv in Hv5; simplify_eq.
    unfold Header, at_, HeaderSet. simpl. by rewrite lookup_insert_eq.
Qed.

Lemma bodyInfo_world (info info' : RequestInfo) (o o' : ClassesController)
    (w w' : W) :
  bodyInfo info o w = Next (info', o') w' → w' = w.
Proof.
  destruct (String.eqb (AppID info) "") eqn:Ha.
  - apply String.eqb_eq in Ha. intros Hb.
    by destruct (bodyInfo_consumes _ _ _ _ _ _ Ha Hb) as (-> & _).
  - unfold bodyInfo. rewrite Ha. by intros (_ & ->)%ok_Next_inv.
Qed.

Lemma parseBody_Next (o o0 : ClassesController) (w w0 : W) :
  parseBody o w = Next o0 w0 → w0 = w ∧ Ctx o0 = Ctx o.
Proof.
  unfold parseBody. destruct (RequestBody (Ctx o)) as [body|].
  - destruct (strings.HasPrefix _ _), (json_Unmarshal body); try done;
      by intros (-> & ->)%ok_Next_inv.
  - by intros (-> & ->)%ok_Next_inv.
Qed.

Lemma dropNoBody_index (o : ClassesController) (k : string) :
  k ≠ "_noBody" → k ≠ "_RevocableSession" →
  Go.index (JSONBody (dropNoBody o)) k = Go.index (JSONBody o) k.
Proof.
  intros H1 H2. unfold dropNoBody.
  destruct (JSONBody o) as [m|] eqn:Hm; simpl; [|by rewrite Hm].
  by rewrite !lookup_delete_ne.
Qed.

Lemma fileBody_Next (o o' : ClassesController) (w w' : W) :
  fileBody o w = Next o' w' →
  w' = w ∧ JSONBody o' = JSONBody o ∧ Ctx o' = Ctx o.
Proof.
  unfold fileBody.
  destruct (Go.present (JSONBody o) && Go.notNil (Go.index (JSONBody o) "base64")).
  - intros (s & w1 & (_ & ->)%lift_Next_inv & Hd)%bind_Next_inv.
    destruct (base64_DecodeString s); by apply ok_Next_inv in Hd as (-> & ->).
  - by intros (-> & ->)%ok_Next_inv.
Qed.

(** The credential check leaves the bodies and the request alone. *)
Lemma authorize_Next (cfg : config.TConfig) (info : RequestInfo)
    (o o' : ClassesController) (w w' : W) :
  authorize cfg info o w = Next o' w' →
  JSONBody o' = JSONBody o ∧ RawBody o' = RawBody o ∧ Ctx o' = Ctx o.
Proof.
  unfold authorize.
  destruct (negb (String.eqb (AppID info) (config.AppID cfg))); [done|].
  destruct (String.eqb (MasterKey info) (config.MasterKey cfg)).
  { by intros (-> & _)%ok_Next_inv. }
  destruct (negb (String.eqb (ClientKey info) (config.ClientKey cfg))); [done|].
  simpl.
  destruct (String.eqb (SessionToken _) "").
  { by intros (-> & _)%ok_Next_inv. }
  intros ([auth err] & w1 & _ & Hs)%bind_Next_inv.
  destruct err; [done|]. by apply ok_Next_inv in Hs as (-> & _).
Qed.

Lemma credentials_Next_inv (o o1 : ClassesController) (info : RequestInfo)
    (w w1 : W) :
  credentials o w = Next (info, o1) w1 →
  w1 = w
  ∧ ∃ o0 info1 o2,
      parseBody o w = Next o0 w
      ∧ bodyInfo (headerInfo (Ctx o)) (dropNoBody o0) w = Next (info1, o2) w
      ∧ fileBody o2 w = Next o1 w
      ∧ info = sdkInfo info1.
Proof.
  unfold credentials.
  intros (o0 & w0 & Hp & Hrest)%bind_Next_inv.
  destruct (parseBody_Next _ _ _ _ Hp) as (-> & _).
  apply bind_Next_inv in Hrest as ([info1 o2] & w2 & Hb & Hrest).
  pose proof (bodyInfo_world _ _ _ _ _ _ Hb) as ->.
  apply bind_Next_inv in Hrest as (o3 & w3 & Hf & Hrest).
  destruct (fileBody_Next _ _ _ _ Hf) as (-> & _).
  apply ok_Next_inv in Hrest as (Hp' & ->). simplify_eq.
  split; [done|]. by exists o0, info1, o2.
Qed.

Lemma sdkInfo_fields (info : RequestInfo) :
  AppID (sdkInfo info) = AppID info
  ∧ MasterKey (sdkInfo info) = MasterKey info
  ∧ ClientKey (sdkInfo info) = ClientKey info
  ∧ SessionToken (sdkInfo info) = SessionToken info
  ∧ InstallationID (sdkInfo info) = InstallationID info.
Proof. unfold sdkInfo. by destruct (negb _). Qed.

Lemma bind_Served_inv {A B} (m : ctl W A) (f : A → ctl W B) (w w' : W) r :
  (m ≫= f) w = Served r w' →
  m w = Served r w' ∨ ∃ a w1, m w = Next a w1 ∧ f a w1 = Served r w'.
Proof.
  unfold mbind, ctl_bind. destruct (m w) as [a w1|r1 w1|].
  - intros Hf. right. by exists a, w1.
  - intros [= -> ->]. by left.
  - done.
Qed.

Lemma deref_Next_inv {A} (p : option A) (a : A) (w w' : W) :
  deref p w = Next a w' → p = Some a ∧ w' = w.
Proof. unfold deref. destruct p; [|done]. by intros [= -> ->]. Qed.

Lemma call_Next_inv {A} (f : W → A * W) (a : A) (w w' : W) :
  call f w = Next a w' → f w = (a, w').
Proof. unfold call. destruct (f w). by intros [= -> ->]. Qed.

Lemma refreshToken_eq (o : ClassesController) (info : RequestInfo) (v : value)
    (w : W) :
  Info o = Some info →
  refreshToken o v w = Next (withRequestToken (SessionToken info) v) w.
Proof.
  intros Hi. unfold refreshToken, withRequestToken.
  destruct v as [| | | | | |m]; try done. simpl.
  destruct (Go.notNil (default VNil (m !! "sessionToken"))); [|done].
  unfold mbind, ctl_bind. rewrite Hi. simpl.
  by destruct (negb (String.eqb (SessionToken info) "")).
Qed.

Lemma refreshTokens_eq (o : ClassesController) (info : RequestInfo)
    (rows : list value) (w : W) :
  Info o = Some info →
  refreshTokens o rows w
  = Next (map (withRequestToken (SessionToken info)) rows) w.
Proof.
  intros Hi. induction rows as [|v rows IH]; [done|].
  simpl. rewrite (bind_Next _ _ _ _ _ (refreshToken_eq o info v w Hi)).
  by rewrite (bind_Next _ _ _ _ _ IH).
Qed.

Lemma deref_Served {A} (p : option A) (w w' : W) r :
  deref p w ≠ Served r w'.
Proof. unfold deref. by destruct p. Qed.

Lemma lift_Served {A} (x : outcome A) (w w' : W) r :
  lift x w ≠ Served r w'.
Proof. unfold lift. by destruct x. Qed.

Lemma call_Served {A} (f : W → A * W) (w w' : W) r :
  call f w ≠ Served r w'.
Proof. unfold call. by destruct (f w). Qed.

Lemma ok_Served {A} (a : A) (w w' : W) r : ok a w ≠ Served r w'.
Proof. done. Qed.

Lemma index_Some_VString (m : gmap string value) (k s : string) :
  Go.index (Some m) k = VString s → m !! k = Some (VString s).
Proof. simpl. destruct (m !! k); simpl; [congruence|done]. Qed.

(** [HandleGet] on [_User]: the row served has no [sessionToken], unless it
    is the row of the user of the request, where it has the token of the
    request. *)
Lemma HandleGet_User_token (o : ClassesController) (w w' : W)
    (m : gmap string value) :
  ClassName (withClassName o) = "_User" →
  HandleGet o w = Served (json (Data (VMap m))) w' →
  m !! "sessionToken"
  = match requesterId o, m !! "objectId" with
    | Some (VString userId), Some (VString objectId) =>
        if String.eqb objectId userId
        then VString ∘ SessionToken <$> Info o
        else None
    | _, _ => None
    end.
Proof.
  intros Hcls. unfold HandleGet.
  set (o2 := withObjectID (withClassName o)).
  assert (Hauth : Auth o2 = Auth o).
  { unfold o2, withObjectID, withClassName.
    by destruct (String.eqb (ObjectID _) ""), (String.eqb (ClassName o) ""). }
  assert (Hinfo : Info o2 = Info o).
  { unfold o2, withObjectID, withClassName.
    by destruct (String.eqb (ObjectID _) ""), (String.eqb (ClassName o) ""). }
  assert (Hcls2 : ClassName o2 = "_User").
  { rewrite <- Hcls. unfold o2, withObjectID.
    by destruct (String.eqb (ObjectID _) ""). }
  intros [Hd|(info & w1 & _ & Hrest)]%bind_Served_inv;
    [by apply deref_Served in Hd|].
  apply bind_Served_inv in Hrest as [Hd|([response err] & w2 & _ & Hrest)];
    [by apply call_Served in Hd|].
  destruct err as [err|]; [done|].
  destruct (negb _ && _); [done|].
  apply bind_Served_inv in Hrest as [Hd|(first & w3 & _ & Hrest)];
    [by apply deref_Served in Hd|].
  rewrite Hcls2 in Hrest. simpl in Hrest.
  apply bind_Served_inv in Hrest as [Hd|(result & w4 & Hblock & Hrest)].
  { apply bind_Served_inv in Hd as [Hd|(auth & w5 & _ & Hd)];
      [by apply deref_Served in Hd|].
    destruct (Go.present (rest.User auth)); [|done].
    apply bind_Served_inv in Hd as [Hd|(oid & w6 & _ & Hd)];
      [by apply lift_Served in Hd|].
    apply bind_Served_inv in Hd as [Hd|(uid & w7 & _ & Hd)];
      [by apply lift_Served in Hd|].
    destruct (String.eqb oid uid); [|done].
    apply bind_Served_inv in Hd as [Hd|(info' & w8 & _ & Hd)];
      [by apply deref_Served in Hd|].
    by apply lift_Served in Hd. }
  assert (Hres : result = Some m).
  { unfold serve, json in Hrest. destruct result; simpl in Hrest; congruence. }
  subst result. clear Hrest.
  apply bind_Next_inv in Hblock as (auth & w5 & (Ha & ->)%deref_Next_inv & Hblock).
  rewrite Hauth in Ha. unfold requesterId. rewrite Ha.
  destruct (rest.User auth) as [user|] eqn:Hu; simpl in Hblock.
  - apply bind_Next_inv in Hblock
      as (oid & w6 & (Hoid%assertString_inv & ->)%lift_Next_inv & Hblock).
    apply bind_Next_inv in Hblock
      as (uid & w7 & (Huid%assertString_inv & ->)%lift_Next_inv & Hblock).
    apply index_Some_VString in Huid. rewrite Huid.
    destruct (utils.M first) as [row|] eqn:Hrow; [|done].
    simpl in Hoid.
    destruct (String.eqb oid uid) eqn:Heq.
    + apply bind_Next_inv in Hblock
        as (info' & w8 & (Hi & ->)%deref_Next_inv & Hblock).
      apply lift_Next_inv in Hblock as ([= <-] & _).
      rewrite Hinfo in Hi. rewrite Hi. simpl.
      rewrite lookup_insert_eq, lookup_insert_ne by done.
      match type of Hoid with
      | default _ ?x = _ => destruct x as [v|]; [|done]
      end.
      simpl in Hoid. subst v. by rewrite Heq.
    + apply ok_Next_inv in Hblock as ([= ->] & _).
      rewrite lookup_delete_eq.
      match type of Hoid with
      | default _ ?x = _ => destruct x as [v|]; [|done]
      end.
      simpl in Hoid. subst v. by rewrite Heq.
  - apply ok_Next_inv in Hblock as (Hm & _).
    destruct (utils.M first) as [row|]; [|done].
    simpl in Hm. simplify_eq. by rewrite lookup_delete_eq.
Qed.

Lemma optionInt_inv (o : ClassesController) (k msg : string)
    (options : gmap string value) (w : W) :
  (∃ options', optionInt o k msg options w = Next options' w)
  ∨ optionInt o k msg options w
    = Served (json (ErrorMessageToMap InvalidQuery msg)) w.
Proof.
  unfold optionInt. destruct (strconv.Atoi _); [left|right]; eauto.
Qed.

(** [HandleFind] serves an error, or what [rest.Find] answered with the
    session tokens refreshed. *)
Lemma HandleFind_served (o : ClassesController) (info : RequestInfo)
    (w w' : W) (r : Response) :
  Info o = Some info →
  HandleFind o w = Served r w' →
  (∃ code msg, Json r = ErrorMap code msg)
  ∨ ∃ where_ options response,
      rest_Find (Auth o) (ClassName (withClassName o)) where_ options
        (ClientSDK info) w = ((response, None), w')
      ∧ r = json (Data (ofMap (refreshedResponse (SessionToken info) response))).
Proof.
  intros Hi. unfold HandleFind.
  set (o1 := withClassName o).
  assert (Hauth : Auth o1 = Auth o).
  { unfold o1, withClassName. by destruct (String.eqb (ClassName o) ""). }
  assert (Hinfo : Info o1 = Some info).
  { rewrite <- Hi. unfold o1, withClassName.
    by destruct (String.eqb (ClassName o) ""). }
  intros [Hs|(options1 & w1 & Hn & Hrest)]%bind_Served_inv.
  { left. destruct (negb _); [|done].
    destruct (optionInt_inv o1 "skip" "skip should be int" ∅ w) as [[? Hx]|Hx];
      rewrite Hx in Hs; [done|].
    injection Hs as <- _. by eexists _, _. }
  assert (w1 = w) as ->.
  { destruct (negb _); [|by apply ok_Next_inv in Hn as (_ & ->)].
    destruct (optionInt_inv o1 "skip" "skip should be int" ∅ w) as [[? Hx]|Hx];
      rewrite Hx in Hn; [by injection Hn|done]. }
  clear Hn.
  apply bind_Served_inv in Hrest as [Hs|(options2 & w2 & Hn & Hrest)].
  { left. destruct (negb _); [|done].
    destruct (optionInt_inv o1 "limit" "limit should be int" options1 w)
      as [[? Hx]|Hx]; rewrite Hx in Hs; [done|].
    injection Hs as <- _. by eexists _, _. }
  assert (w2 = w) as ->.
  { destruct (negb _); [|by apply ok_Next_inv in Hn as (_ & ->)].
    destruct (optionInt_inv o1 "limit" "limit should be int" options1 w)
      as [[? Hx]|Hx]; rewrite Hx in Hn; [by injection Hn|done]. }
  clear Hn.
  apply bind_Served_inv in Hrest as [Hs|(where_ & w3 & Hn & Hrest)].
  { left. destruct (negb _); [|done].
    destruct (json_Unmarshal _); [done|].
    injection Hs as <- _. by eexists _, _. }
  assert (w3 = w) as ->.
  { destruct (negb _); [|by apply ok_Next_inv in Hn as (_ & ->)].
    destruct (json_Unmarshal _); [|done].
    by apply ok_Next_inv in Hn as (_ & ->). }
  clear Hn.
  apply bind_Served_inv in Hrest as [Hs|(info' & w4 & Hn & Hrest)];
    [by apply deref_Served in Hs|].
  apply deref_Next_inv in Hn as (Hn & ->).
  rewrite Hinfo in Hn. injection Hn as <-.
  apply bind_Served_inv in Hrest as [Hs|([response err] & w5 & Hcall & Hrest)];
    [by apply call_Served in Hs|].
  apply call_Next_inv in Hcall. rewrite Hauth in Hcall.
  destruct err as [err|].
  { left. injection Hrest as <- _. by eexists _, _. }
  right. exists where_. eexists. exists response.
  apply bind_Served_inv in Hrest as [Hs|(response' & w6 & Hn & Hrest)].
  { destruct (utils.HasResults response); [|done].
    rewrite (bind_Next _ _ _ _ _ (refreshTokens_eq o1 info _ w5 Hinfo)) in Hs.
    done. }
  injection Hrest as <- <-.
  assert (response' = refreshedResponse (SessionToken info) response ∧ w6 = w5)
    as [-> ->].
  { unfold refreshedResponse. destruct (utils.HasResults response).
    - rewrite (bind_Next _ _ _ _ _ (refreshTokens_eq o1 info _ w5 Hinfo)) in Hn.
      by apply ok_Next_inv in Hn as (-> & ->).
    - by apply ok_Next_inv in Hn as (-> & ->). }
  split; [exact Hcall|done].
Qed.

End ControllerFacts.

Section ControllerClaims.
Import controllers.
Context {W : Type} `{API W}.

(** C5.  Once the credentials of a request are collected, they are checked
    in this order.  An application id other than the configured one: the
    request is answered 403 unauthorized.  Otherwise, a master key equal to
    the configured one: the handler runs with an [Auth] that has
    [IsMaster = true] and the installation id, whatever the client key and
    the session token are, and no session is looked up.  Otherwise, a client
    key other than the configured one: 403 unauthorized. *)
Theorem Prepare_credential_precedence (cfg : config.TConfig)
    (o o1 : ClassesController) (info : RequestInfo) (w w1 : W) :
  credentials o w = Next (info, o1) w1 →
  (AppID info ≠ config.AppID cfg →
     Prepare cfg o w = Served unauthorized w1)
  ∧ (AppID info = config.AppID cfg →
     MasterKey info = config.MasterKey cfg →
     Prepare cfg o w
     = Next (setAuth (setInfo o1 (Some info))
               (Some {| rest.IsMaster := true;
                        rest.InstallationID := InstallationID info;
                        rest.User := None; rest.UserRoles := [] |})) w1
     ∧ ∀ clientKey sessionToken,
         Auth <$> (match authorize cfg
                           (setSessionToken (setClientKey info clientKey)
                              sessionToken) o1 w1 with
                   | Next o2 _ => Some o2
                   | _ => None
                   end)
         = Some (Some (masterAuth info)))
  ∧ (AppID info = config.AppID cfg →
     MasterKey info ≠ config.MasterKey cfg →
     ClientKey info ≠ config.ClientKey cfg →
     Prepare cfg o w = Served unauthorized w1).
Proof.
  intros Hc. rewrite (Prepare_authorize _ _ _ _ _ _ Hc).
  split; [|split].
  - intros Ha. unfold authorize.
    by rewrite (proj2 (String.eqb_neq _ _) Ha).
  - intros Ha Hm. split.
    + by apply authorize_master.
    + intros ck st. by rewrite authorize_master.
  - intros Ha Hm Hk. unfold authorize.
    rewrite (proj2 (String.eqb_eq _ _) Ha), (proj2 (String.eqb_neq _ _) Hm),
      (proj2 (String.eqb_neq _ _) Hk).
    done.
Qed.

(** C10.  A body that does not decode as JSON is answered with InvalidJSON
    when the Content-type header starts with [application/json].  Under any
    other content type the bytes become the raw body, no JSON body is set,
    and the request goes on to the credential check (which, there being no
    JSON body to take keys from, answers 403 when the headers carry no
    application id). *)
Theorem Prepare_unparsable_body (cfg : config.TConfig) (o : ClassesController)
    (w : W) (body : list Byte.byte) :
  JSONBody o = None →
  RequestBody (Ctx o) = Some body →
  json_Unmarshal body = None →
  (strings.HasPrefix (Header (Ctx o) "Content-type") "application/json" = true →
     Prepare cfg o w
     = Served (json (ErrorMessageToMap InvalidJSON "invalid JSON")) w)
  ∧ (strings.HasPrefix (Header (Ctx o) "Content-type") "application/json" = false →
     parseBody o w = Next (setRawBody o (Some body)) w
     ∧ Prepare cfg o w
       = if String.eqb (AppID (headerInfo (Ctx o))) ""
         then Served unauthorized w
         else authorize cfg (sdkInfo (headerInfo (Ctx o)))
                (setRawBody o (Some body)) w).
Proof.
  intros Hj Hb Hu. split; intros Hct.
  - unfold Prepare, credentials.
    assert (Hp : parseBody o w
                 = Served (json (ErrorMessageToMap InvalidJSON "invalid JSON")) w).
    { unfold parseBody. by rewrite Hb, Hct, Hu. }
    rewrite (bind_Served _ _ _ _ _
               (bind_Served _ _ _ _ _ Hp)). done.
  - assert (Hp : parseBody o w = Next (setRawBody o (Some body)) w).
    { unfold parseBody. by rewrite Hb, Hct, Hu. }
    split; [done|].
    unfold Prepare, credentials.
    unfold mbind at 1. unfold ctl_bind.
    rewrite (bind_Next _ _ _ _ _ Hp).
    rewrite dropNoBody_nil by done.
    pose proof (bodyInfo_nil (headerInfo (Ctx o)) (setRawBody o (Some body)) w Hj)
      as Hbi.
    destruct (String.eqb (AppID (headerInfo (Ctx o))) "") eqn:Ha.
    + by rewrite (bind_Served _ _ _ _ _ Hbi).
    + rewrite (bind_Next _ _ _ _ _ Hbi). cbv beta iota.
      by rewrite (bind_Next _ _ _ _ _
                    (fileBody_nil (setRawBody o (Some body)) w Hj)).
Qed.

(** C8, as the code has it.  When the headers of a request carry no
    application id and [Prepare] lets the request through, the body handed to
    the handler holds nothing under any of the reserved keys, and every string
    the decoded body carried under one of them has been taken into the
    credential info of the request (for [_ContentType], into the
    Content-type header). *)
Theorem Prepare_consumes_reserved_fields (cfg : config.TConfig)
    (o o' : ClassesController) (w w' : W) :
  AppID (headerInfo (Ctx o)) = "" →
  Prepare cfg o w = Next o' w' →
  (∀ k, k ∈ reservedKeys → Go.index (JSONBody o') k = VNil)
  ∧ ∃ o0 info o1,
      parseBody o w = Next o0 w
      ∧ credentials o w = Next (info, o1) w
      ∧ JSONBody o' = JSONBody o1
      ∧ Go.index (JSONBody o0) "_ApplicationId" = VString (AppID info)
      ∧ (∀ v, Go.index (JSONBody o0) "_ClientKey" = VString v →
              ClientKey info = v)
      ∧ (∀ v, Go.index (JSONBody o0) "_InstallationId" = VString v →
              InstallationID info = v)
      ∧ (∀ v, Go.index (JSONBody o0) "_SessionToken" = VString v →
              SessionToken info = v)
      ∧ (∀ v, Go.index (JSONBody o0) "_MasterKey" = VString v →
              MasterKey info = v)
      ∧ (∀ v, Go.index (JSONBody o0) "_ContentType" = VString v →
              Header (Ctx o') "Content-type" = v).
Proof.
  intros Ha. unfold Prepare.
  intros ([info o1] & w1 & Hc & Hauth)%bind_Next_inv.
  destruct (credentials_Next_inv _ _ _ _ _ Hc)
    as (-> & o0 & info1 & o2 & Hp & Hb & Hf & ->).
  destruct (authorize_Next _ _ _ _ _ _ Hauth) as (Hj & _ & Hx).
  destruct (fileBody_Next _ _ _ _ Hf) as (_ & Hj2 & Hx2).
  destruct (bodyInfo_consumes _ _ _ _ _ _ Ha Hb)
    as (_ & Hnil & Happ & Hck & Hin & Hst & Hmk & Hct).
  rewrite dropNoBody_index in Happ by done.
  split.
  - intros k Hk. rewrite Hj, Hj2. by apply Hnil.
  - exists o0, (sdkInfo info1), o1.
    repeat split; try done.
    + by destruct (sdkInfo_fields info1) as (-> & _).
    + intros v Hv. destruct (sdkInfo_fields info1) as (_ & _ & -> & _).
      apply Hck. by rewrite dropNoBody_index.
    + intros v Hv. destruct (sdkInfo_fields info1) as (_ & _ & _ & _ & ->).
      apply Hin. by rewrite dropNoBody_index.
    + intros v Hv. destruct (sdkInfo_fields info1) as (_ & _ & _ & -> & _).
      apply Hst. by rewrite dropNoBody_index.
    + intros v Hv. destruct (sdkInfo_fields info1) as (_ & -> & _).
      apply Hmk. by rewrite dropNoBody_index.
    + intros v Hv. rewrite Hx, Hx2.
      apply Hct. by rewrite dropNoBody_index.
Qed.

(** What the two handlers do with [sessionToken], whatever [rest.Get] and
    [rest.Find] answer.  A Get on [_User] serves its row without a
    [sessionToken], unless the row is the one of the user of the request
    (same [objectId]), where the field holds the session token of the
    request and not the stored one.  A Find serves an error, or the
    response of [rest.Find] in which every row that carries a
    [sessionToken] has it replaced by the session token of the request when
    the request has one, every other row, and every row when the request has
    no session token, being served as [rest.Find] returned it: the field is
    never removed, so the redaction of the Get path is missing here for
    every answer of [rest.Find] that carries the field on a row of another
    user. *)
Theorem User_sessionToken_handling (o : ClassesController) (w w' : W) :
  (∀ m : gmap string value,
     ClassName (withClassName o) = "_User" →
     HandleGet o w = Served (json (Data (VMap m))) w' →
     m !! "sessionToken"
     = match requesterId o, m !! "objectId" with
       | Some (VString userId), Some (VString objectId) =>
           if String.eqb objectId userId
           then VString ∘ SessionToken <$> Info o
           else None
       | _, _ => None
       end)
  ∧ (∀ (info : RequestInfo) (r : Response),
       Info o = Some info →
       HandleFind o w = Served r w' →
       (∃ code msg, Json r = ErrorMap code msg)
       ∨ ∃ where_ options response,
           rest_Find (Auth o) (ClassName (withClassName o)) where_ options
             (ClientSDK info) w = ((response, None), w')
           ∧ r = json (Data (ofMap
                   (refreshedResponse (SessionToken info) response)))).
Proof.
  split.
  - intros m. apply HandleGet_User_token.
  - intros info r. apply HandleFind_served.
Qed.

End ControllerClaims.

(** The master key wins over a wrong client key and a session token. *)
Lemma Prepare_credential_precedence_witness :
  ∃ info o1,
    @controllers.credentials _ (controllersExample.exampleAPI None)
      (controllers.newController controllersExample.masterRequest) []
    = controllers.Next (info, o1) []
    ∧ @controllers.Prepare _ (controllersExample.exampleAPI None)
        controllersExample.exampleConfig
        (controllers.newController controllersExample.masterRequest) []
      = controllers.Next
          (controllers.setAuth (controllers.setInfo o1 (Some info))
             (Some {| rest.IsMaster := true; rest.InstallationID := "i1";
                      rest.User := None; rest.UserRoles := [] |})) [].
Proof.
  eexists _, _. split; [reflexivity|].
  lazymatch goal with
  | |- controllers.Prepare ?cfg ?o ?w
       = controllers.Next
           (controllers.setAuth (controllers.setInfo ?o1 (Some ?info)) _) ?w1 =>
      exact (proj1 (proj1 (proj2
               (@Prepare_credential_precedence _
                  (controllersExample.exampleAPI None) cfg o o1 info w w1
                  eq_refl))
               eq_refl eq_refl))
  end.
Defined.

(** A text body that is not JSON becomes the raw body. *)
Lemma Prepare_unparsable_body_witness :
  let api := controllersExample.exampleAPI None in
  let body := controllersExample.jsonText "hello" in
  let o := controllers.newController
             (controllersExample.request "text/plain" (Some body) "Game") in
  controllers.JSONBody o = None
  ∧ controllers.RequestBody (controllers.Ctx o) = Some body
  ∧ @controllers.json_Unmarshal _ api body = None
  ∧ strings.HasPrefix (controllers.Header (controllers.Ctx o) "Content-type")
      "application/json" = false
  ∧ @controllers.parseBody _ api o []
    = controllers.Next (controllers.setRawBody o (Some body)) [].
Proof.
  split; [reflexivity|]. split; [reflexivity|]. split; [reflexivity|].
  split; [reflexivity|].
  exact (proj1 (proj2
           (@Prepare_unparsable_body _ (controllersExample.exampleAPI None)
              controllersExample.exampleConfig
              (controllers.newController
                 (controllersExample.request "text/plain"
                    (Some (controllersExample.jsonText "hello")) "Game"))
              [] (controllersExample.jsonText "hello") eq_refl eq_refl eq_refl)
           eq_refl)).
Defined.

(** The keys of [keysText] are taken from the body. *)
Lemma Prepare_consumes_reserved_fields_witness :
  let api := controllersExample.exampleAPI None in
  let o := controllers.newController controllersExample.bodyKeysRequest in
  ∃ o',
    controllers.AppID (@controllers.headerInfo _ api (controllers.Ctx o)) = ""
    ∧ @controllers.Prepare _ api controllersExample.exampleConfig o []
      = controllers.Next o' []
    ∧ controllers.JSONBody o' = Some (<["score" := VInt 5]> ∅)
    ∧ ∀ k, k ∈ controllers.reservedKeys →
           Go.index (controllers.JSONBody o') k = VNil.
Proof.
  eexists. split; [reflexivity|]. split; [reflexivity|]. split; [reflexivity|].
  exact (proj1
           (@Prepare_consumes_reserved_fields _ (controllersExample.exampleAPI None)
              controllersExample.exampleConfig
              (controllers.newController controllersExample.bodyKeysRequest)
              _ [] [] eq_refl eq_refl)).
Defined.

(** A Get of [u1] by [u1]: the row served carries the token of the request. *)
Lemma User_sessionToken_handling_witness :
  let api := controllersExample.exampleAPI controllersExample.oneUser in
  let o := controllersExample.prepared "_User" "u1" in
  let m := <["objectId" := VString "u1"]>
             (<["sessionToken" := VString "r:current"]> ∅) in
  controllers.ClassName (controllers.withClassName o) = "_User"
  ∧ @controllers.HandleGet _ api o []
    = controllers.Served (controllers.json (controllers.Data (VMap m))) []
  ∧ m !! "sessionToken" = Some (VString "r:current").
Proof.
  split; [reflexivity|]. split; [reflexivity|].
  exact (proj1
           (@User_sessionToken_handling _
              (controllersExample.exampleAPI controllersExample.oneUser)
              (controllersExample.prepared "_User" "u1") [] [])
           _ eq_refl eq_refl).
Defined.


(* ===================================================================== *)
(** * Part III. Further properties of the modelled code                   *)
(* ===================================================================== *)

(** ** Basic authentication ([httpAuth], [decodeBase64]) *)

Lemma Split_nonempty (s : string) (sep : Ascii.ascii) : strings.Split s sep ≠ [].
Proof.
  destruct s as [|c r]; simpl; [done|].
  destruct (Ascii.eqb c sep); [done|]. by destruct (strings.Split r sep).
Qed.

(** The first piece holds no separator; what follows it is the split of the
    text after the first separator. *)
Lemma Split_inv (s : string) (sep : Ascii.ascii) (x : string) (l : list string) :
  strings.Split s sep = x :: l →
  strings.hasByte sep x = false
  ∧ ((l = [] ∧ s = x)
     ∨ ∃ r, s = x +:+ String sep r ∧ l = strings.Split r sep).
Proof.
  revert x l. induction s as [|c r IH]; intros x l; simpl.
  - intros [= <- <-]. split; [done|]. by left.
  - destruct (Ascii.eqb c sep) eqn:Hc.
    + intros [= <- <-]. split; [done|]. right. exists r.
      apply Ascii.eqb_eq in Hc. by subst.
    + destruct (strings.Split r sep) as [|piece pieces] eqn:Hs;
        [by apply Split_nonempty in Hs|].
      intros [= <- <-]. destruct (IH piece pieces eq_refl) as [Hn Hr].
      split; [simpl; by rewrite Hc, Hn|].
      destruct Hr as [[-> ->]|(r' & -> & ->)]; [by left|].
      right. by exists r'.
Qed.

Lemma Split_no_sep (s : string) (sep : Ascii.ascii) :
  strings.hasByte sep s = false → strings.Split s sep = [s].
Proof.
  induction s as [|c r IH]; simpl; [done|].
  intros [Hc Hr]%orb_false_elim. rewrite Hc. by rewrite (IH Hr).
Qed.

Lemma Split_app (x r : string) (sep : Ascii.ascii) :
  strings.hasByte sep x = false →
  strings.Split (x +:+ String sep r) sep = x :: strings.Split r sep.
Proof.
  induction x as [|c x IH]; simpl.
  - intros _. by rewrite Ascii.eqb_refl.
  - intros [Hc Hx]%orb_false_elim. rewrite Hc. by rewrite (IH Hx).
Qed.

(** Exactly two pieces: exactly one separator. *)
Lemma Split_two (s : string) (sep : Ascii.ascii) (x y : string) :
  strings.Split s sep = [x; y]
  ↔ s = x +:+ String sep y
    ∧ strings.hasByte sep x = false ∧ strings.hasByte sep y = false.
Proof.
  split.
  - intros Hs. destruct (Split_inv _ _ _ _ Hs) as [Hx [[[=] _]|(r & -> & Hr)]].
    symmetry in Hr.
    destruct (Split_inv _ _ _ _ Hr) as [Hy [[_ ->]|(r' & _ & Hr')]]; [done|].
    symmetry in Hr'. by apply Split_nonempty in Hr'.
  - intros (-> & Hx & Hy). by rewrite Split_app, Split_no_sep.
Qed.

Section BasicAuth.
Import controllers.
Context {W : Type} `{API W}.

(** The map [httpAuth] builds. *)
Lemma httpAuth_shape (authorization : string) (m : gmap string string) :
  httpAuth authorization = Some m →
  ∃ appID key,
    m = <["appId" := appID]>
          (<["masterKey" :=
               if strings.HasPrefix key "javascript-key=" then "" else key]>
             (<["javascriptKey" :=
                  if strings.HasPrefix key "javascript-key="
                  then strings.sliceFrom key 15 else ""]> ∅)).
Proof.
  unfold httpAuth.
  destruct (String.eqb authorization ""); [done|].
  destruct (strings.HasPrefix _ _); [|done].
  destruct (strings.Split _ _) as [|appID [|key [|extra pieces]]]; try done.
  intros [= <-]. by exists appID, key.
Qed.

Lemma at_basic (appID masterKey javascriptKey : string) :
  let m := <["appId" := appID]>
             (<["masterKey" := masterKey]>
                (<["javascriptKey" := javascriptKey]> ∅)) in
  at_ m "appId" = appID
  ∧ at_ m "masterKey" = masterKey
  ∧ at_ m "javascriptKey" = javascriptKey.
Proof. done. Qed.

(** X1.  [httpAuth] yields credentials exactly when the header starts with
    [basic ] (in any letter case) and the decoded text has exactly one colon;
    the text before the colon is the application id, the text after it is
    the JavaScript key when it starts with [javascript-key=] and the master
    key otherwise.  A key or application id that itself holds a colon makes
    the header yield nothing. *)
Theorem httpAuth_Some_iff (authorization : string) (m : gmap string string) :
  httpAuth authorization = Some m
  ↔ strings.HasPrefix (strings.ToLower authorization) "basic " = true
    ∧ ∃ appID key,
        decodeBase64 (strings.sliceFrom authorization 6)
        = appID +:+ String ":"%char key
        ∧ strings.hasByte ":"%char appID = false
        ∧ strings.hasByte ":"%char key = false
        ∧ m = <["appId" := appID]>
                (<["masterKey" :=
                     if strings.HasPrefix key "javascript-key=" then "" else key]>
                   (<["javascriptKey" :=
                        if strings.HasPrefix key "javascript-key="
                        then strings.sliceFrom key 15 else ""]> ∅)).
Proof.
  unfold httpAuth.
  destruct (String.eqb authorization "") eqn:He.
  { apply String.eqb_eq in He. subst. split; [done|]. by intros [[=] _]. }
  destruct (strings.HasPrefix (strings.ToLower authorization) "basic ") eqn:Hp;
    [|split; [done|by intros [[=] _]]].
  change (String.length "basic ") with 6%nat.
  destruct (strings.Split _ _) as [|appID [|key [|extra pieces]]] eqn:Hs.
  - by apply Split_nonempty in Hs.
  - split; [done|]. intros (_ & a & k & Hd & Ha & Hk & _).
    rewrite Hd, Split_app, Split_no_sep in Hs by done. done.
  - apply Split_two in Hs as (Hd & Ha & Hk).
    change (String.length "javascript-key=") with 15%nat.
    split.
    + intros [= <-]. split; [done|]. by exists appID, key.
    + intros (_ & a & k & Hd' & Ha' & Hk' & ->).
      assert (Heq : strings.Split (a +:+ String ":"%char k) ":"%char
                    = strings.Split (appID +:+ String ":"%char key) ":"%char)
        by (by rewrite <- Hd, <- Hd').
      rewrite !Split_app, !Split_no_sep in Heq by done.
      by injection Heq as -> ->.
  - split; [done|]. intros (_ & a & k & Hd & Ha & Hk & _).
    rewrite Hd, Split_app, Split_no_sep in Hs by done. done.
Qed.

(** X2.  A text that does not decode as base64 yields no credentials
    ([decodeBase64] turns the error into the empty text). *)
Theorem httpAuth_undecodable (authorization : string) :
  base64_DecodeString (strings.sliceFrom authorization 6) = None →
  httpAuth authorization = None.
Proof.
  intros Hd. unfold httpAuth.
  destruct (String.eqb authorization ""); [done|].
  destruct (strings.HasPrefix _ _); [|done].
  change (String.length "basic ") with 6%nat.
  unfold decodeBase64. by rewrite Hd.
Qed.

(** X3.  When the authorization header yields credentials, its application
    id replaces the one of [X-Parse-Application-Id] even when it is empty,
    and it replaces at most one of the master key and the client key of the
    headers; session token, installation id and client version always come
    from their own headers. *)
Theorem headerInfo_basic_auth (i : Input) (m : gmap string string) :
  httpAuth (Header i "authorization") = Some m →
  AppID (headerInfo i) = at_ m "appId"
  ∧ (MasterKey (headerInfo i) = Header i "X-Parse-Master-Key"
     ∨ ClientKey (headerInfo i) = Header i "X-Parse-Client-Key")
  ∧ (at_ m "masterKey" ≠ "" → MasterKey (headerInfo i) = at_ m "masterKey")
  ∧ (at_ m "javascriptKey" ≠ "" → ClientKey (headerInfo i) = at_ m "javascriptKey")
  ∧ SessionToken (headerInfo i) = Header i "X-Parse-Session-Token"
  ∧ InstallationID (headerInfo i) = Header i "X-Parse-Installation-Id"
  ∧ ClientVersion (headerInfo i) = Header i "X-Parse-Client-Version".
Proof.
  intros Hm. unfold headerInfo. rewrite Hm.
  apply httpAuth_shape in Hm as (appID & key & ->).
  match goal with
  | |- context [at_ (<["appId" := ?a]> (<["masterKey" := ?mk]>
                       (<["javascriptKey" := ?jk]> ∅))) _] =>
      destruct (at_basic a mk jk) as (-> & -> & ->)
  end.
  destruct (strings.HasPrefix key "javascript-key="); simpl.
  - destruct (String.eqb (strings.sliceFrom key 15) "") eqn:Hj; simpl;
      repeat split; auto; try done.
    apply String.eqb_eq in Hj. by rewrite Hj.
  - destruct (String.eqb key "") eqn:Hk; simpl; repeat split; auto; try done.
    apply String.eqb_eq in Hk. by rewrite Hk.
Qed.

End BasicAuth.

Lemma httpAuth_undecodable_witness :
  let api := controllersStub.stubAPI
               (controllersStub.stub "{}" (Some ∅) "YXBwOm1r" "app:mk" (None, None)) in
  @controllers.base64_DecodeString _ api (strings.sliceFrom "Basic e30" 6) = None
  ∧ @controllers.httpAuth _ api "Basic e30" = None.
Proof.
  split; [reflexivity|].
  exact (@httpAuth_undecodable _
           (controllersStub.stubAPI
              (controllersStub.stub "{}" (Some ∅) "YXBwOm1r" "app:mk" (None, None)))
           "Basic e30" eq_refl).
Defined.

Lemma headerInfo_basic_auth_witness :
  let api := controllersStub.stubAPI
               (controllersStub.stub "{}" (Some ∅) "YXBwOm1r" "app:mk" (None, None)) in
  let i := controllersStub.requestWith
             (<["authorization" := "BASIC YXBwOm1r"]>
                (<["X-Parse-Application-Id" := "other"]>
                   (<["X-Parse-Client-Key" := "ck"]> ∅)))
             None "/classes/Game" ∅ in
  let m := <["appId" := "app"]>
             (<["masterKey" := "mk"]> (<["javascriptKey" := ""]> ∅)) in
  @controllers.httpAuth _ api (controllers.Header i "authorization") = Some m
  ∧ controllers.AppID (@controllers.headerInfo _ api i) = "app"
  ∧ controllers.MasterKey (@controllers.headerInfo _ api i) = "mk"
  ∧ controllers.ClientKey (@controllers.headerInfo _ api i) = "ck".
Proof.
  split; [reflexivity|].
  pose proof (@headerInfo_basic_auth _
                (controllersStub.stubAPI
                   (controllersStub.stub "{}" (Some ∅) "YXBwOm1r" "app:mk"
                      (None, None)))
                (controllersStub.requestWith
                   (<["authorization" := "BASIC YXBwOm1r"]>
                      (<["X-Parse-Application-Id" := "other"]>
                         (<["X-Parse-Client-Key" := "ck"]> ∅)))
                   None "/classes/Game" ∅)
                _ eq_refl) as (Ha & _ & Hm & _).
  split; [exact Ha|]. split; [by apply Hm|reflexivity].
Defined.

(** ** [Prepare]: the body and the credentials *)

Section PrepareFacts.
Import controllers.
Context {W : Type} `{API W}.

Lemma consume_cases (body : M) (k : string) (w : W) :
  consume body k w
  = match Go.index body k with
    | VNil => Next (None, body) w
    | VString s => Next (Some s, Go.mapDelete body k) w
    | _ => Crash
    end.
Proof. unfold consume. by destruct (Go.index body k). Qed.

Lemma consume_Served (body : M) (k : string) (w w' : W) r :
  consume body k w ≠ Served r w'.
Proof. rewrite consume_cases. by destruct (Go.index body k). Qed.

Lemma consume_present (body body' : M) (k : string) (v : option string)
    (w w' : W) :
  consume body k w = Next (v, body') w' → Go.present body' = Go.present body.
Proof.
  rewrite consume_cases. destruct (Go.index body k); try done;
    intros [= <- <- <-]; by destruct body.
Qed.

Ltac chase_keys :=
  repeat match goal with
    | Hk : ∀ k', k' ≠ _ → Go.index ?b k' = _ |- context [Go.index ?b ?k] =>
        rewrite (Hk k) by done
    end;
  rewrite ?index_mapDelete; repeat case_decide; try done.

(** Lines 106-141 touch nothing of the controller but the JSON body and the
    Content-type header, and nothing of the body but the reserved keys and
    [_RevocableSession]. *)
Lemma bodyInfo_frame (info info' : RequestInfo) (o o' : ClassesController)
    (w w' : W) :
  bodyInfo info o w = Next (info', o') w' →
  (∀ k, k ∉ "_RevocableSession" :: reservedKeys →
        Go.index (JSONBody o') k = Go.index (JSONBody o) k)
  ∧ (∀ k, Go.index (JSONBody o) k = VNil → Go.index (JSONBody o') k = VNil)
  ∧ Go.present (JSONBody o') = Go.present (JSONBody o)
  ∧ RawBody o' = RawBody o
  ∧ URL (Ctx o') = URL (Ctx o)
  ∧ (AppID info ≠ "" → info' = info ∧ o' = o).
Proof.
  unfold bodyInfo. destruct (String.eqb (AppID info) "") eqn:Ha.
  2:{ intros (Hp & _)%ok_Next_inv. simplify_eq. by repeat split. }
  apply String.eqb_eq in Ha.
  set (o2 := if Go.present (JSONBody o)
             then setJSONBody o (Go.mapDelete (JSONBody o) "_RevocableSession")
             else o).
  assert (Ho2 : ∀ k, k ≠ "_RevocableSession" →
                     Go.index (JSONBody o2) k = Go.index (JSONBody o) k).
  { intros k Hk. unfold o2. destruct (JSONBody o) as [m|] eqn:Hm; simpl.
    - by rewrite lookup_delete_ne.
    - by rewrite Hm. }
  assert (Hnil2 : ∀ k, Go.index (JSONBody o) k = VNil →
                       Go.index (JSONBody o2) k = VNil).
  { intros k Hk. destruct (decide (k = "_RevocableSession")) as [->|Hne].
    - unfold o2. destruct (JSONBody o) as [m|] eqn:Hm; simpl.
      + by rewrite lookup_delete_eq.
      + by rewrite Hm.
    - by rewrite Ho2. }
  assert (Hrest2 : Go.present (JSONBody o2) = Go.present (JSONBody o)
                   ∧ RawBody o2 = RawBody o ∧ Ctx o2 = Ctx o).
  { unfold o2. by destruct (JSONBody o) as [m|] eqn:Hm; simpl; rewrite ?Hm. }
  destruct Hrest2 as (Hp2 & Hr2 & Hc2).
  destruct (Go.present (JSONBody o2)
            && Go.notNil (Go.index (JSONBody o2) "_ApplicationId")); [|done].
  intros (appID & w0 & (Happ%assertString_inv & ->)%lift_Next_inv & Hrest)%bind_Next_inv.
  apply bind_Next_inv in Hrest as ([v1 b1] & w1 & Hc1 & Hrest).
  pose proof (consume_present _ _ _ _ _ _ Hc1) as Hp1.
  apply consume_Next in Hc1 as (-> & Hn1 & Hk1 & _).
  apply bind_Next_inv in Hrest as ([v2 b2] & w2 & Hc2' & Hrest).
  pose proof (consume_present _ _ _ _ _ _ Hc2') as Hp2'.
  apply consume_Next in Hc2' as (-> & Hn2 & Hk2 & _).
  apply bind_Next_inv in Hrest as ([v3 b3] & w3 & Hc3 & Hrest).
  pose proof (consume_present _ _ _ _ _ _ Hc3) as Hp3.
  apply consume_Next in Hc3 as (-> & Hn3 & Hk3 & _).
  apply bind_Next_inv in Hrest as ([v4 b4] & w4 & Hc4 & Hrest).
  pose proof (consume_present _ _ _ _ _ _ Hc4) as Hp4.
  apply consume_Next in Hc4 as (-> & Hn4 & Hk4 & _).
  apply bind_Next_inv in Hrest as ([v5 b5] & w5 & Hc5 & Hrest).
  pose proof (consume_present _ _ _ _ _ _ Hc5) as Hp5.
  apply consume_Next in Hc5 as (-> & Hn5 & Hk5 & _).
  apply ok_Next_inv in Hrest as (Hp & ->). simplify_eq.
  assert (Hb : ∀ k, Go.index b5 k
                    = if bool_decide (k ∈ reservedKeys) then VNil
                      else Go.index (JSONBody o2) k).
  { intros k. unfold reservedKeys. case_bool_decide as Hk.
    - repeat (apply elem_of_cons in Hk as [->|Hk]);
        [..|by apply elem_of_nil in Hk]; chase_keys.
    - rewrite !not_elem_of_cons in Hk.
      destruct Hk as (? & ? & ? & ? & ? & ? & _).
      rewrite Hk5, Hk4, Hk3, Hk2, Hk1 by done.
      rewrite index_mapDelete. by case_decide. }
  assert (Hj : JSONBody
                 (setJSONBody
                    (from_option
                       (fun v => setCtx o2 (HeaderSet (Ctx o2) "Content-type" v))
                       o2 v5) b5) = b5) by done.
  rewrite Hj. split; [|split; [|split; [|split; [|split]]]].
  - intros k Hk. rewrite not_elem_of_cons in Hk. destruct Hk as [Hk1' Hk2'].
    rewrite Hb. rewrite bool_decide_eq_false_2 by done. by apply Ho2.
  - intros k Hk. rewrite Hb. case_bool_decide; [done|]. by apply Hnil2.
  - rewrite <- Hp2, Hp5, Hp4, Hp3, Hp2', Hp1. by destruct (JSONBody o2).
  - by destruct v5.
  - rewrite <- Hc2. by destruct v5.
  - done.
Qed.

(** The value lines 106-141 read under a reserved key is the one the decoded
    body holds there. *)
Lemma bodyInfo_reads (o : ClassesController) (k : string) :
  k ≠ "_noBody" → k ≠ "_RevocableSession" →
  Go.index
    (JSONBody
       (if Go.present (JSONBody (dropNoBody o))
        then setJSONBody (dropNoBody o)
               (Go.mapDelete (JSONBody (dropNoBody o)) "_RevocableSession")
        else dropNoBody o)) k
  = Go.index (JSONBody o) k.
Proof.
  intros H1 H2. rewrite <- (dropNoBody_index o k H1 H2).
  destruct (JSONBody (dropNoBody o)) as [m|] eqn:Hm; simpl; [|by rewrite Hm].
  by rewrite lookup_delete_ne.
Qed.

Lemma Prepare_after_parse (cfg : config.TConfig) (o o0 : ClassesController)
    (w w0 : W) :
  parseBody o w = Next o0 w0 →
  Prepare cfg o w
  = ('(info, o2) ← bodyInfo (headerInfo (Ctx o)) (dropNoBody o0);
     o3 ← fileBody o2;
     authorize cfg (sdkInfo info) o3) w.
Proof.
  intros Hp. destruct (parseBody_Next _ _ _ _ Hp) as (-> & _).
  unfold Prepare, credentials.
  unfold mbind at 1. unfold ctl_bind at 1.
  rewrite (bind_Next _ _ _ _ _ Hp).
  unfold mbind, ctl_bind.
  destruct (bodyInfo _ _ w) as [[info o2] w2| |]; [|done..].
  by destruct (fileBody o2 w2).
Qed.

(** X4.  A request with no application id in its headers and none in its
    decoded body (or with no JSON body at all) is answered 403 unauthorized,
    whatever the configuration, before any credential is compared. *)
Theorem Prepare_missing_application_id (cfg : config.TConfig)
    (o o0 : ClassesController) (w w0 : W) :
  AppID (headerInfo (Ctx o)) = "" →
  parseBody o w = Next o0 w0 →
  Go.index (JSONBody o0) "_ApplicationId" = VNil →
  Prepare cfg o w = Served unauthorized w.
Proof.
  intros Ha Hp Hnil. rewrite (Prepare_after_parse _ _ _ _ _ Hp).
  apply bind_Served. unfold bodyInfo. rewrite Ha. simpl.
  rewrite bodyInfo_reads, Hnil by done. simpl.
  by rewrite andb_false_r.
Qed.

(** X5.  Without an application id in the headers, a decoded body whose
    [_ApplicationId] is not null and which holds, under any reserved key, a
    value that is neither null nor a string makes [Prepare] panic on the type
    assertion. *)
Theorem Prepare_malformed_reserved_field (cfg : config.TConfig)
    (o o0 : ClassesController) (w w0 : W) (k : string) :
  AppID (headerInfo (Ctx o)) = "" →
  parseBody o w = Next o0 w0 →
  Go.index (JSONBody o0) "_ApplicationId" ≠ VNil →
  k ∈ reservedKeys →
  Go.index (JSONBody o0) k ≠ VNil →
  (∀ s, Go.index (JSONBody o0) k ≠ VString s) →
  Prepare cfg o w = Crash.
Proof.
  intros Ha Hp Happ Hk Hnn Hns. rewrite (Prepare_after_parse _ _ _ _ _ Hp).
  apply bind_Crash. unfold bodyInfo. rewrite Ha. simpl.
  set (o2 := if Go.present (JSONBody (dropNoBody o0)) then _ else _).
  assert (Hread : ∀ k', k' ≠ "_noBody" → k' ≠ "_RevocableSession" →
                        Go.index (JSONBody o2) k' = Go.index (JSONBody o0) k').
  { intros k' H1 H2. by apply bodyInfo_reads. }
  assert (Hpres : Go.present (JSONBody o2) = true).
  { destruct (JSONBody o2) as [m|] eqn:Hm; [done|].
    specialize (Hread "_ApplicationId"). simpl in Hread.
    by rewrite <- Hread in Happ. }
  rewrite Hpres, Hread by done.
  destruct (Go.index (JSONBody o0) "_ApplicationId") as [|appID| | | | |] eqn:Hv;
    try done.
  simpl. unfold reservedKeys in Hk.
  apply elem_of_cons in Hk as [->|Hk]; [by destruct (Hns appID)|].
  unfold mbind at 1. unfold ctl_bind at 1. simpl.
  set (b0 := Go.mapDelete (JSONBody o2) "_ApplicationId").
  assert (H0 : ∀ k', k' ≠ "_noBody" → k' ≠ "_RevocableSession" →
                     k' ≠ "_ApplicationId" →
                     Go.index b0 k' = Go.index (JSONBody o0) k').
  { intros k' ? ? ?. unfold b0. rewrite index_mapDelete.
    case_decide; [done|]. by apply Hread. }
  assert (Hbad : ∀ b, Go.index b k = Go.index (JSONBody o0) k →
                      consume b k w = Crash).
  { intros b Hb. rewrite consume_cases, Hb.
    destruct (Go.index (JSONBody o0) k) eqn:Hkv; try done. by destruct (Hns s). }
  apply elem_of_cons in Hk as [->|Hk].
  { apply bind_Crash. apply Hbad. by apply H0. }
  destruct (consume b0 "_ClientKey" w) as [[v1 b1] w1| |] eqn:Hc1;
    [|by apply consume_Served in Hc1|by apply bind_Crash].
  rewrite (bind_Next _ _ _ _ _ Hc1).
  apply consume_Next in Hc1 as (-> & _ & Hk1 & _).
  apply elem_of_cons in Hk as [->|Hk].
  { apply bind_Crash. apply Hbad. rewrite Hk1 by done. by apply H0. }
  destruct (consume b1 "_InstallationId" w) as [[v2 b2] w2| |] eqn:Hc2;
    [|by apply consume_Served in Hc2|by apply bind_Crash].
  rewrite (bind_Next _ _ _ _ _ Hc2).
  apply consume_Next in Hc2 as (-> & _ & Hk2 & _).
  apply elem_of_cons in Hk as [->|Hk].
  { apply bind_Crash. apply Hbad. rewrite Hk2, Hk1 by done. by apply H0. }
  destruct (consume b2 "_SessionToken" w) as [[v3 b3] w3| |] eqn:Hc3;
    [|by apply consume_Served in Hc3|by apply bind_Crash].
  rewrite (bind_Next _ _ _ _ _ Hc3).
  apply consume_Next in Hc3 as (-> & _ & Hk3 & _).
  apply elem_of_cons in Hk as [->|Hk].
  { apply bind_Crash. apply Hbad. rewrite Hk3, Hk2, Hk1 by done. by apply H0. }
  destruct (consume b3 "_MasterKey" w) as [[v4 b4] w4| |] eqn:Hc4;
    [|by apply consume_Served in Hc4|by apply bind_Crash].
  rewrite (bind_Next _ _ _ _ _ Hc4).
  apply consume_Next in Hc4 as (-> & _ & Hk4 & _).
  apply elem_of_cons in Hk as [->|Hk]; [|by apply elem_of_nil in Hk].
  apply bind_Crash. apply Hbad. rewrite Hk4, Hk3, Hk2, Hk1 by done. by apply H0.
Qed.

Lemma bind_unchanged {A B} (m : ctl W A) (f : A → ctl W B) (w : W) :
  unchanged w (m w) → (∀ a, unchanged w (f a w)) →
  unchanged w ((m ≫= f) w).
Proof.
  unfold mbind, ctl_bind. destruct (m w) as [a w1|r w1|]; simpl; [|done..].
  intros ->. auto.
Qed.

Lemma consume_unchanged (body : M) (k : string) (w : W) :
  unchanged w (consume body k w).
Proof. rewrite consume_cases. by destruct (Go.index body k). Qed.

Lemma lift_unchanged {A} (x : outcome A) (w : W) :
  unchanged w (lift (W := W) x w).
Proof. by destruct x. Qed.

Lemma bodyInfo_unchanged (info : RequestInfo) (o : ClassesController) (w : W) :
  unchanged w (bodyInfo info o w).
Proof.
  unfold bodyInfo. destruct (String.eqb _ _); [|done]. simpl.
  destruct (_ && _); [|done].
  apply bind_unchanged; [apply lift_unchanged|]. intros appID.
  apply bind_unchanged; [apply consume_unchanged|]. intros [v1 b1].
  apply bind_unchanged; [apply consume_unchanged|]. intros [v2 b2].
  apply bind_unchanged; [apply consume_unchanged|]. intros [v3 b3].
  apply bind_unchanged; [apply consume_unchanged|]. intros [v4 b4].
  apply bind_unchanged; [apply consume_unchanged|]. by intros [v5 b5].
Qed.

Lemma parseBody_unchanged (o : ClassesController) (w : W) :
  unchanged w (parseBody o w).
Proof.
  unfold parseBody. destruct (RequestBody _); [|done].
  by destruct (strings.HasPrefix _ _), (json_Unmarshal _).
Qed.

Lemma fileBody_cases (o : ClassesController) (w : W) :
  fileBody o w
  = if Go.present (JSONBody o) then
      match Go.index (JSONBody o) "base64" with
      | VNil => Next o w
      | VString s =>
          match base64_DecodeString s with
          | Some data => Next (setRawBody o (Some data)) w
          | None => Next o w
          end
      | _ => Crash
      end
    else Next o w.
Proof.
  unfold fileBody. destruct (Go.present _); [|done]. simpl.
  destruct (Go.index _ _); try done. simpl.
  unfold mbind, ctl_bind. simpl. by destruct (base64_DecodeString _).
Qed.

Lemma fileBody_unchanged (o : ClassesController) (w : W) :
  unchanged w (fileBody o w).
Proof.
  rewrite fileBody_cases. destruct (Go.present _); [|done].
  destruct (Go.index _ _); try done. by destruct (base64_DecodeString _).
Qed.

(** Collecting the credentials reads the request and nothing else. *)
Lemma credentials_unchanged (o : ClassesController) (w : W) :
  unchanged w (credentials o w).
Proof.
  unfold credentials.
  apply bind_unchanged; [apply parseBody_unchanged|]. intros o0.
  apply bind_unchanged; [apply bodyInfo_unchanged|]. intros [info o2].
  apply bind_unchanged; [apply fileBody_unchanged|]. done.
Qed.

Lemma credentials_URL (o o1 : ClassesController) (info : RequestInfo) (w w1 : W) :
  credentials o w = Next (info, o1) w1 → URL (Ctx o1) = URL (Ctx o).
Proof.
  intros Hc.
  destruct (credentials_Next_inv _ _ _ _ _ Hc)
    as (-> & o0 & info1 & o2 & Hp & Hb & Hf & ->).
  destruct (parseBody_Next _ _ _ _ Hp) as (_ & <-).
  destruct (fileBody_Next _ _ _ _ Hf) as (_ & _ & ->).
  destruct (bodyInfo_frame _ _ _ _ _ _ Hb) as (_ & _ & _ & _ & -> & _).
  unfold dropNoBody. by destruct (Go.present _).
Qed.

(** X6.  On an URL that ends in [/login/], a request that passes the
    application id and client key checks without the master key has its
    session token cleared: the handler runs with an empty token in its info
    and an anonymous [Auth], and no session is looked up. *)
Theorem Prepare_login_clears_token (cfg : config.TConfig)
    (o o1 : ClassesController) (info : RequestInfo) (w w1 : W) :
  credentials o w = Next (info, o1) w1 →
  AppID info = config.AppID cfg →
  MasterKey info ≠ config.MasterKey cfg →
  ClientKey info = config.ClientKey cfg →
  strings.HasSuffix (URL (Ctx o)) "/login/" = true →
  Prepare cfg o w
  = Next (setAuth (setInfo o1 (Some (setSessionToken info "")))
            (Some {| rest.IsMaster := false;
                     rest.InstallationID := InstallationID info;
                     rest.User := None; rest.UserRoles := [] |})) w1.
Proof.
  intros Hc Ha Hm Hk Hu. rewrite (Prepare_authorize _ _ _ _ _ _ Hc).
  rewrite <- (credentials_URL _ _ _ _ _ Hc) in Hu.
  unfold authorize.
  rewrite (proj2 (String.eqb_eq _ _) Ha), (proj2 (String.eqb_neq _ _) Hm),
    (proj2 (String.eqb_eq _ _) Hk).
  simpl. by rewrite Hu.
Qed.

(** X7.  [Prepare] leaves the world as it was unless it looks up a session,
    which it does only for a request whose application id and client key
    match, whose master key does not, whose URL does not end in [/login/]
    and whose session token is not empty. *)
Theorem Prepare_session_lookup_only (cfg : config.TConfig)
    (o : ClassesController) (w : W) :
  match Prepare cfg o w with
  | Next _ w' | Served _ w' =>
      w' = w
      ∨ ∃ info o1,
          credentials o w = Next (info, o1) w
          ∧ AppID info = config.AppID cfg
          ∧ MasterKey info ≠ config.MasterKey cfg
          ∧ ClientKey info = config.ClientKey cfg
          ∧ strings.HasSuffix (URL (Ctx o)) "/login/" = false
          ∧ SessionToken info ≠ ""
          ∧ w' = (GetAuthForSessionToken (SessionToken info)
                    (InstallationID info) w).2
  | Crash => True
  end.
Proof.
  pose proof (credentials_unchanged o w) as Hu.
  destruct (credentials o w) as [[info o1] w1|r w1|] eqn:Hc; simpl in Hu.
  - subst w1. rewrite (Prepare_authorize _ _ _ _ _ _ Hc).
    pose proof (credentials_URL _ _ _ _ _ Hc) as Hurl.
    unfold authorize.
    destruct (String.eqb (AppID info) (config.AppID cfg)) eqn:Ha;
      simpl; [|by left].
    destruct (String.eqb (MasterKey info) (config.MasterKey cfg)) eqn:Hm;
      simpl; [by left|].
    destruct (String.eqb (ClientKey info) (config.ClientKey cfg)) eqn:Hk;
      simpl; [|by left].
    rewrite Hurl.
    destruct (strings.HasSuffix (URL (Ctx o)) "/login/") eqn:Hl; simpl;
      [by left|].
    destruct (String.eqb (SessionToken info) "") eqn:Ht; simpl; [by left|].
    apply String.eqb_eq in Ha, Hk. apply String.eqb_neq in Hm, Ht.
    unfold mbind, ctl_bind, call.
    destruct (GetAuthForSessionToken _ _ w) as [[auth err] w2] eqn:Hg.
    destruct err; simpl; right; exists info, o1; by rewrite Hg.
  - subst w1. unfold Prepare. rewrite (bind_Served _ _ _ _ _ Hc). by left.
  - unfold Prepare. by rewrite (bind_Crash _ _ _ Hc).
Qed.

Lemma dropNoBody_facts (o : ClassesController) :
  Go.index (JSONBody (dropNoBody o)) "_noBody" = VNil
  ∧ Go.index (JSONBody (dropNoBody o)) "_RevocableSession" = VNil
  ∧ Go.present (JSONBody (dropNoBody o)) = Go.present (JSONBody o)
  ∧ RawBody (dropNoBody o) = RawBody o
  ∧ Ctx (dropNoBody o) = Ctx o.
Proof.
  unfold dropNoBody. destruct (JSONBody o) as [m|] eqn:Hm; simpl.
  - rewrite lookup_delete_ne, !lookup_delete_eq by done. done.
  - by rewrite Hm.
Qed.

(** What a request let through by [Prepare] carries of its decoded body. *)
Lemma Prepare_Next_frame (cfg : config.TConfig) (o o' : ClassesController)
    (w w' : W) :
  Prepare cfg o w = Next o' w' →
  ∃ o0,
    parseBody o w = Next o0 w
    ∧ (∀ k, k ∉ "_noBody" :: "_RevocableSession" :: reservedKeys →
            Go.index (JSONBody o') k = Go.index (JSONBody o0) k)
    ∧ Go.index (JSONBody o') "_noBody" = VNil
    ∧ Go.index (JSONBody o') "_RevocableSession" = VNil
    ∧ Go.present (JSONBody o') = Go.present (JSONBody o0).
Proof.
  unfold Prepare.
  intros ([info o1] & w1 & Hc & Hauth)%bind_Next_inv.
  destruct (credentials_Next_inv _ _ _ _ _ Hc)
    as (-> & o0 & info1 & o2 & Hp & Hb & Hf & ->).
  destruct (authorize_Next _ _ _ _ _ _ Hauth) as (-> & _ & _).
  destruct (fileBody_Next _ _ _ _ Hf) as (_ & -> & _).
  destruct (bodyInfo_frame _ _ _ _ _ _ Hb) as (Hk & Hn & Hpr & _).
  destruct (dropNoBody_facts o0) as (Hnb & Hrs & Hpd & _).
  exists o0. split; [done|]. split; [|split; [|split]].
  - intros k Hk'. rewrite not_elem_of_cons in Hk'. destruct Hk' as [Hk1 Hk2].
    rewrite Hk by done. rewrite not_elem_of_cons in Hk2.
    apply dropNoBody_index; tauto.
  - by apply Hn.
  - by apply Hn.
  - by rewrite Hpr.
Qed.

(** X8.  Of the decoded body, [Prepare] removes [_noBody] and
    [_RevocableSession] always, touches the six reserved keys at most, and
    hands every other field to the handler as decoded; a request with a JSON
    body still has one. *)
Theorem Prepare_keeps_client_fields (cfg : config.TConfig)
    (o o' : ClassesController) (w w' : W) :
  Prepare cfg o w = Next o' w' →
  ∃ o0,
    parseBody o w = Next o0 w
    ∧ (∀ k, k ∉ "_noBody" :: "_RevocableSession" :: reservedKeys →
            Go.index (JSONBody o') k = Go.index (JSONBody o0) k)
    ∧ Go.index (JSONBody o') "_noBody" = VNil
    ∧ Go.index (JSONBody o') "_RevocableSession" = VNil
    ∧ Go.present (JSONBody o') = Go.present (JSONBody o0).
Proof. apply Prepare_Next_frame. Qed.

(** X9.  When the headers carry an application id, the body is not
    consulted for credentials: the credentials are those of the headers, the
    request headers stay as they were, and the body keeps its reserved
    fields ([_noBody] and [_RevocableSession] alone are removed). *)
Theorem credentials_from_headers (o o1 : ClassesController)
    (info : RequestInfo) (w w1 : W) :
  credentials o w = Next (info, o1) w1 →
  AppID (headerInfo (Ctx o)) ≠ "" →
  info = sdkInfo (headerInfo (Ctx o))
  ∧ Ctx o1 = Ctx o
  ∧ ∃ o0, parseBody o w = Next o0 w
          ∧ JSONBody o1
            = (if Go.present (JSONBody o0)
               then Go.mapDelete (Go.mapDelete (JSONBody o0) "_noBody")
                      "_RevocableSession"
               else JSONBody o0).
Proof.
  intros Hc Ha.
  destruct (credentials_Next_inv _ _ _ _ _ Hc)
    as (-> & o0 & info1 & o2 & Hp & Hb & Hf & ->).
  destruct (bodyInfo_frame _ _ _ _ _ _ Hb) as (_ & _ & _ & _ & _ & Hsame).
  destruct (Hsame Ha) as [-> ->].
  destruct (fileBody_Next _ _ _ _ Hf) as (_ & -> & ->).
  destruct (parseBody_Next _ _ _ _ Hp) as (_ & <-).
  split; [done|]. split.
  - by destruct (dropNoBody_facts o0) as (_ & _ & _ & _ & ->).
  - exists o0. split; [done|]. unfold dropNoBody.
    by destruct (Go.present (JSONBody o0)).
Qed.

(** X10.  A decoded body with a string under [base64] that decodes is a file
    upload: the handler finds the decoded bytes as its raw body, and the
    [base64] field still in its JSON body. *)
Theorem Prepare_base64_upload (cfg : config.TConfig) (o o' : ClassesController)
    (w w' : W) (s : string) (data : list Byte.byte) :
  Prepare cfg o w = Next o' w' →
  Go.index (JSONBody o') "base64" = VString s →
  base64_DecodeString s = Some data →
  RawBody o' = Some data.
Proof.
  unfold Prepare.
  intros ([info o1] & w1 & Hc & Hauth)%bind_Next_inv Hs Hd.
  destruct (credentials_Next_inv _ _ _ _ _ Hc)
    as (-> & o0 & info1 & o2 & Hp & Hb & Hf & ->).
  destruct (authorize_Next _ _ _ _ _ _ Hauth) as (Hj & -> & _).
  rewrite Hj in Hs.
  destruct (fileBody_Next _ _ _ _ Hf) as (_ & Hj2 & _).
  rewrite Hj2 in Hs. rewrite fileBody_cases in Hf.
  destruct (Go.present (JSONBody o2)) eqn:Hpr.
  - rewrite Hs, Hd in Hf. by injection Hf as <-.
  - by destruct (JSONBody o2).
Qed.

(** X11.  A request whose body did not decode to a JSON object (no body, a
    raw body, or the JSON text [null]) never reaches [rest.Create] or
    [rest.Update]: if [Prepare] lets it through, the handler answers
    InvalidJSON, request body is empty, and leaves the world alone. *)
Theorem Serve_without_JSON_body (cfg : config.TConfig)
    (o o0 : ClassesController) (w w0 : W) :
  parseBody o w = Next o0 w0 →
  JSONBody o0 = None →
  let served h :=
    Serve cfg h o w
    = match Prepare cfg o w with
      | Next _ w' =>
          Served (json (ErrorMessageToMap InvalidJSON "request body is empty")) w'
      | Served r w' => Served r w'
      | Crash => Crash
      end in
  served HandleCreate ∧ served HandleUpdate.
Proof.
  intros Hp Hj. simpl. unfold Serve.
  destruct (Prepare cfg o w) as [o' w'|r w'|] eqn:HP.
  - destruct (Prepare_Next_frame _ _ _ _ _ HP) as (o0' & Hp' & _ & _ & _ & Hpr).
    rewrite Hp in Hp'. injection Hp' as <- _. rewrite Hj in Hpr.
    assert (Hn : JSONBody o' = None) by (by destruct (JSONBody o')).
    rewrite !(bind_Next _ _ _ _ _ HP).
    unfold HandleCreate, HandleUpdate, withObjectID, withClassName.
    split.
    + destruct (String.eqb (ClassName o') ""); simpl; by rewrite Hn.
    + destruct (String.eqb (ClassName o') ""); simpl;
        destruct (String.eqb (ObjectID _) ""); simpl; by rewrite Hn.
  - by rewrite !(bind_Served _ _ _ _ _ HP).
  - by rewrite !(bind_Crash _ _ _ HP).
Qed.

End PrepareFacts.


Lemma Prepare_missing_application_id_witness :
  let api := controllersStub.stubAPI controllersStub.bare in
  let o := controllers.newController
             (controllersStub.requestWith ∅ None "/classes/Game" ∅) in
  controllers.AppID (@controllers.headerInfo _ api (controllers.Ctx o)) = ""
  ∧ @controllers.parseBody _ api o [] = controllers.Next o []
  ∧ @controllers.Prepare _ api controllersExample.exampleConfig o []
    = controllers.Served controllers.unauthorized [].
Proof.
  split; [reflexivity|]. split; [reflexivity|].
  exact (@Prepare_missing_application_id _
           (controllersStub.stubAPI controllersStub.bare)
           controllersExample.exampleConfig
           (controllers.newController
              (controllersStub.requestWith ∅ None "/classes/Game" ∅))
           _ [] [] eq_refl eq_refl eq_refl).
Defined.

Lemma Prepare_malformed_reserved_field_witness :
  let api := controllersStub.stubAPI controllersStub.malformedStub in
  let o := controllers.newController controllersStub.malformedRequest in
  @controllers.json_Unmarshal _ api
    (controllersExample.jsonText "{'_ApplicationId':'app','_MasterKey':5}")
  = Some (Some (<["_ApplicationId" := VString "app"]>
                  (<["_MasterKey" := VInt 5]> ∅)))
  ∧ @controllers.Prepare _ api controllersExample.exampleConfig o []
    = controllers.Crash.
Proof.
  split; [reflexivity|].
  eapply (@Prepare_malformed_reserved_field _
            (controllersStub.stubAPI controllersStub.malformedStub)
            controllersExample.exampleConfig
            (controllers.newController controllersStub.malformedRequest)
            _ [] [] "_MasterKey").
  - reflexivity.
  - reflexivity.
  - discriminate.
  - unfold controllers.reservedKeys. set_solver.
  - discriminate.
  - intros s. discriminate.
Defined.

Lemma Prepare_login_clears_token_witness :
  let api := controllersStub.stubAPI controllersStub.bare in
  let o := controllers.newController controllersStub.loginRequest in
  ∃ info o1,
    @controllers.credentials _ api o [] = controllers.Next (info, o1) []
    ∧ controllers.SessionToken info = "r:old"
    ∧ @controllers.Prepare _ api controllersExample.exampleConfig o []
      = controllers.Next
          (controllers.setAuth
             (controllers.setInfo o1
                (Some (controllers.setSessionToken info "")))
             (Some {| rest.IsMaster := false; rest.InstallationID := "";
                      rest.User := None; rest.UserRoles := [] |})) [].
Proof.
  eexists _, _. split; [reflexivity|]. split; [reflexivity|].
  lazymatch goal with
  | |- controllers.Prepare ?cfg ?o ?w
       = controllers.Next
           (controllers.setAuth
              (controllers.setInfo ?o1
                 (Some (controllers.setSessionToken ?info _))) _) ?w1 =>
      refine (@Prepare_login_clears_token _
                (controllersStub.stubAPI controllersStub.bare) cfg o o1 info w w1
                eq_refl eq_refl _ eq_refl eq_refl); discriminate
  end.
Defined.

Lemma Prepare_keeps_client_fields_witness :
  let api := controllersExample.exampleAPI None in
  let o := controllers.newController controllersExample.bodyKeysRequest in
  ∃ o',
    @controllers.Prepare _ api controllersExample.exampleConfig o []
    = controllers.Next o' []
    ∧ Go.index (controllers.JSONBody o') "score" = VInt 5
    ∧ ∃ o0,
        @controllers.parseBody _ api o [] = controllers.Next o0 []
        ∧ (∀ k, k ∉ "_noBody" :: "_RevocableSession" :: controllers.reservedKeys →
                Go.index (controllers.JSONBody o') k
                = Go.index (controllers.JSONBody o0) k)
        ∧ Go.index (controllers.JSONBody o') "_noBody" = VNil
        ∧ Go.index (controllers.JSONBody o') "_RevocableSession" = VNil
        ∧ Go.present (controllers.JSONBody o')
          = Go.present (controllers.JSONBody o0).
Proof.
  eexists. split; [reflexivity|]. split; [reflexivity|].
  exact (@Prepare_keeps_client_fields _ (controllersExample.exampleAPI None)
           controllersExample.exampleConfig
           (controllers.newController controllersExample.bodyKeysRequest)
           _ [] [] eq_refl).
Defined.

Lemma credentials_from_headers_witness :
  let api := controllersExample.exampleAPI None in
  let o := controllers.newController
             (controllersExample.request "application/json"
                (Some controllersExample.scoreText) "Game") in
  ∃ info o1,
    @controllers.credentials _ api o [] = controllers.Next (info, o1) []
    ∧ controllers.JSONBody o1 = Some controllersExample.scoreDocument
    ∧ info = @controllers.sdkInfo _ api
               (@controllers.headerInfo _ api (controllers.Ctx o))
    ∧ controllers.Ctx o1 = controllers.Ctx o.
Proof.
  eexists _, _. split; [reflexivity|]. split; [reflexivity|].
  lazymatch goal with
  | |- ?info = _ ∧ controllers.Ctx ?o1 = controllers.Ctx ?o =>
      pose proof (@credentials_from_headers _ (controllersExample.exampleAPI None)
                    o o1 info [] [] eq_refl) as Hx
  end.
  destruct Hx as (Hi & Hc & _); [discriminate|]. by split.
Defined.

Lemma Prepare_base64_upload_witness :
  let api := controllersStub.stubAPI controllersStub.uploadStub in
  let o := controllers.newController controllersStub.uploadRequest in
  ∃ o',
    @controllers.Prepare _ api controllersExample.exampleConfig o []
    = controllers.Next o' []
    ∧ Go.index (controllers.JSONBody o') "base64" = VString "aGk="
    ∧ @controllers.base64_DecodeString _ api "aGk="
      = Some (String.list_byte_of_string "hi")
    ∧ controllers.RawBody o' = Some (String.list_byte_of_string "hi").
Proof.
  eexists. split; [reflexivity|]. split; [reflexivity|]. split; [reflexivity|].
  exact (@Prepare_base64_upload _
           (controllersStub.stubAPI controllersStub.uploadStub)
           controllersExample.exampleConfig
           (controllers.newController controllersStub.uploadRequest)
           _ [] [] "aGk=" _ eq_refl eq_refl eq_refl).
Defined.

Lemma Serve_without_JSON_body_witness :
  let api := controllersStub.stubAPI controllersStub.bare in
  let o := controllers.newController controllersStub.textRequest in
  ∃ o0,
    @controllers.parseBody _ api o [] = controllers.Next o0 []
    ∧ controllers.JSONBody o0 = None
    ∧ @controllers.Serve _ api controllersExample.exampleConfig
        (@controllers.HandleCreate _ api) o []
      = controllers.Served
          (controllers.json
             (controllers.ErrorMessageToMap InvalidJSON "request body is empty"))
          [].
Proof.
  eexists. split; [reflexivity|]. split; [reflexivity|].
  exact (proj1
           (@Serve_without_JSON_body _
              (controllersStub.stubAPI controllersStub.bare)
              controllersExample.exampleConfig
              (controllers.newController controllersStub.textRequest)
              _ [] [] eq_refl eq_refl)).
Defined.

(** ** The handlers *)

Section HandlerFacts.
Import controllers.
Context {W : Type} `{API W}.

Lemma withClassName_fields (o : ClassesController) :
  Ctx (withClassName o) = Ctx o
  ∧ Info (withClassName o) = Info o
  ∧ Auth (withClassName o) = Auth o.
Proof. unfold withClassName. by destruct (String.eqb _ _). Qed.

Lemma withObjectID_fields (o : ClassesController) :
  Ctx (withObjectID o) = Ctx o
  ∧ Info (withObjectID o) = Info o
  ∧ Auth (withObjectID o) = Auth o
  ∧ ClassName (withObjectID o) = ClassName o.
Proof. unfold withObjectID. by destruct (String.eqb _ _). Qed.

(** X12.  [HandleFind] checks its query before it calls [rest.Find]: a
    [skip] that is not an integer is answered InvalidQuery; with a good
    [skip], a [limit] that is not an integer is answered InvalidQuery; with
    both good, a [where] that is not JSON is answered InvalidJSON.  In each
    case the world is left alone, whatever [rest.Find] would have done. *)
Theorem HandleFind_rejects_bad_query (o : ClassesController) (w : W) :
  let q := GetString (Ctx o) in
  let good k := q k = "" ∨ is_Some (strconv.Atoi (q k)) in
  (q "skip" ≠ "" → strconv.Atoi (q "skip") = None →
     HandleFind o w
     = Served (json (ErrorMessageToMap InvalidQuery "skip should be int")) w)
  ∧ (good "skip" → q "limit" ≠ "" → strconv.Atoi (q "limit") = None →
     HandleFind o w
     = Served (json (ErrorMessageToMap InvalidQuery "limit should be int")) w)
  ∧ (good "skip" → good "limit" → q "where" ≠ "" →
     json_Unmarshal (String.list_byte_of_string (q "where")) = None →
     HandleFind o w
     = Served (json (ErrorMessageToMap InvalidJSON "where should be valid json")) w).
Proof.
  simpl. unfold HandleFind.
  destruct (withClassName_fields o) as (Hc & _).
  set (o1 := withClassName o) in *. clearbody o1.
  assert (Hbad : ∀ k msg options,
            GetString (Ctx o) k ≠ "" → strconv.Atoi (GetString (Ctx o) k) = None →
            (if negb (String.eqb (GetString (Ctx o1) k) "")
             then optionInt o1 k msg options
             else ok (A := gmap string value) (<["limit" := VInt 100]> options)) w
            = Served (json (ErrorMessageToMap InvalidQuery msg)) w).
  { intros k msg options Hne Hno. unfold optionInt. rewrite Hc, Hno.
    by rewrite (proj2 (String.eqb_neq _ _) Hne). }
  assert (Hgood : ∀ k msg options (other : gmap string value),
            GetString (Ctx o) k = ""
            ∨ is_Some (strconv.Atoi (GetString (Ctx o) k)) →
            ∃ options',
              (if negb (String.eqb (GetString (Ctx o1) k) "")
               then optionInt o1 k msg options
               else ok other) w = Next options' w).
  { intros k msg options other Hg. unfold optionInt. rewrite Hc.
    destruct Hg as [->|[i ->]]; [by eexists|].
    destruct (negb _); by eexists. }
  split; [|split].
  - intros Hne Hno.
    apply bind_Served. unfold optionInt. rewrite Hc, Hno.
    by rewrite (proj2 (String.eqb_neq _ _) Hne).
  - intros Hg Hne Hno.
    destruct (Hgood "skip" "skip should be int" ∅ ∅ Hg) as [options Hs].
    rewrite (bind_Next _ _ _ _ _ Hs).
    apply bind_Served. by apply Hbad.
  - intros Hg Hg2 Hne Hno.
    destruct (Hgood "skip" "skip should be int" ∅ ∅ Hg) as [options Hs].
    rewrite (bind_Next _ _ _ _ _ Hs).
    destruct (Hgood "limit" "limit should be int" options
                (<["limit" := VInt 100]> options) Hg2) as [options2 Hl].
    rewrite (bind_Next _ _ _ _ _ Hl).
    apply bind_Served. rewrite Hc, Hno.
    by rewrite (proj2 (String.eqb_neq _ _) Hne).
Qed.

Lemma refreshToken_frame (o : ClassesController) (v v' : value) (w w' : W) :
  refreshToken o v w = Next v' w' →
  w' = w
  ∧ (∀ k, k ≠ "sessionToken" →
          Go.index (utils.M v') k = Go.index (utils.M v) k)
  ∧ (Go.index (utils.M v) "sessionToken" = VNil → v' = v)
  ∧ Go.notNil (Go.index (utils.M v') "sessionToken")
    = Go.notNil (Go.index (utils.M v) "sessionToken").
Proof.
  unfold refreshToken.
  destruct (Go.notNil (Go.index (utils.M v) "sessionToken")) eqn:Hn.
  2:{ intros (-> & ->)%ok_Next_inv. by rewrite Hn. }
  intros (info & w1 & (_ & ->)%deref_Next_inv & Hrest)%bind_Next_inv.
  destruct (negb _).
  2:{ apply ok_Next_inv in Hrest as (-> & ->). by rewrite Hn. }
  apply bind_Next_inv in Hrest as (r & w2 & (Hr & ->)%lift_Next_inv & Hrest).
  apply ok_Next_inv in Hrest as (-> & ->).
  destruct (utils.M v) as [m|]; [|done]. injection Hr as <-.
  repeat split.
  - intros k Hk. simpl. by rewrite lookup_insert_ne.
  - intros Hnil. by rewrite Hnil in Hn.
  - simpl. by rewrite lookup_insert_eq.
Qed.

(** X13.  The loop of [HandleFind] over the results changes nothing but
    [sessionToken] values: it keeps the number and order of the rows, every
    other field of every row, and every row without a [sessionToken] as it
    is; it never adds the field to a row and never removes it. *)
Theorem refreshTokens_touches_tokens_only (o : ClassesController)
    (rows rows' : list value) (w w' : W) :
  refreshTokens o rows w = Next rows' w' →
  w' = w
  ∧ length rows' = length rows
  ∧ ∀ (i : nat) v v',
      rows !! i = Some v → rows' !! i = Some v' →
      (∀ k, k ≠ "sessionToken" →
            Go.index (utils.M v') k = Go.index (utils.M v) k)
      ∧ (Go.index (utils.M v) "sessionToken" = VNil → v' = v)
      ∧ Go.notNil (Go.index (utils.M v') "sessionToken")
        = Go.notNil (Go.index (utils.M v) "sessionToken").
Proof.
  revert rows' w'. induction rows as [|v rows IH]; intros rows' w'; simpl.
  - intros (-> & ->)%ok_Next_inv. repeat split; try done.
  - intros (v1 & w1 & Hv & Hrest)%bind_Next_inv.
    destruct (refreshToken_frame _ _ _ _ _ Hv) as (-> & Hframe).
    apply bind_Next_inv in Hrest as (rest' & w2 & Hr & Hrest).
    destruct (IH _ _ Hr) as (-> & Hlen & Hrows).
    apply ok_Next_inv in Hrest as (-> & ->).
    split; [done|]. split; [simpl; by rewrite Hlen|].
    intros [|i] x x'; simpl.
    + by intros [= <-] [= <-].
    + apply Hrows.
Qed.

(** X14.  For a class other than [_User], [HandleGet] serves the first
    result of [rest.Get] as it is, [sessionToken] included, and ignores any
    further result. *)
Theorem HandleGet_serves_first_result (o : ClassesController)
    (info : RequestInfo) (w w' : W) (response : M) (first : value)
    (more : list value) :
  Info o = Some info →
  ClassName (withClassName o) ≠ "_User" →
  rest_Get (Auth o) (ClassName (withClassName o))
    (ObjectID (withObjectID (withClassName o)))
    (optionString o "include" (optionString o "keys" ∅))
    (ClientSDK info) w = ((response, None), w') →
  utils.A (Go.index response "results") = Some (first :: more) →
  HandleGet o w = Served (json (Data (ofMap (utils.M first)))) w'.
Proof.
  intros Hi Hcls Hget Hres. unfold HandleGet.
  destruct (withObjectID_fields (withClassName o)) as (Hc2 & Hi2 & Ha2 & Hn2).
  destruct (withClassName_fields o) as (Hc1 & Hi1 & Ha1).
  set (o2 := withObjectID (withClassName o)) in *.
  assert (Hopt : optionString o2 "include" (optionString o2 "keys" ∅)
                 = optionString o "include" (optionString o "keys" ∅)).
  { unfold optionString. by rewrite Hc2, Hc1. }
  rewrite Hopt, Hi2, Hi1, Hi, Ha2, Ha1, Hn2.
  unfold mbind at 1. unfold ctl_bind at 1. simpl.
  unfold mbind at 1. unfold ctl_bind at 1. unfold call. rewrite Hget.
  rewrite Hres. simpl.
  rewrite (proj2 (String.eqb_neq _ _) Hcls). done.
Qed.

(** X15.  On [_User], when the request has a user and the first result
    holds no string under [objectId], [HandleGet] panics on the type
    assertion after [rest.Get] has run. *)
Theorem HandleGet_User_without_objectId (o : ClassesController)
    (info : RequestInfo) (auth : rest.Auth) (user : gmap string value)
    (w w' : W) (response : M) (first : value) (more : list value) :
  Info o = Some info →
  ClassName (withClassName o) = "_User" →
  Auth o = Some auth →
  rest.User auth = Some user →
  rest_Get (Auth o) (ClassName (withClassName o))
    (ObjectID (withObjectID (withClassName o)))
    (optionString o "include" (optionString o "keys" ∅))
    (ClientSDK info) w = ((response, None), w') →
  utils.A (Go.index response "results") = Some (first :: more) →
  (∀ s, Go.index (utils.M first) "objectId" ≠ VString s) →
  HandleGet o w = Crash.
Proof.
  intros Hi Hcls Hauth Huser Hget Hres Hbad. unfold HandleGet.
  destruct (withObjectID_fields (withClassName o)) as (Hc2 & Hi2 & Ha2 & Hn2).
  destruct (withClassName_fields o) as (Hc1 & Hi1 & Ha1).
  set (o2 := withObjectID (withClassName o)) in *.
  assert (Hopt : optionString o2 "include" (optionString o2 "keys" ∅)
                 = optionString o "include" (optionString o "keys" ∅)).
  { unfold optionString. by rewrite Hc2, Hc1. }
  rewrite Hopt, Hi2, Hi1, Hi, Ha2, Ha1, Hn2.
  unfold mbind at 1. unfold ctl_bind at 1. simpl.
  unfold mbind at 1. unfold ctl_bind at 1. unfold call. rewrite Hget.
  rewrite Hres. simpl. rewrite Hcls. simpl.
  rewrite Hauth.
  rewrite (bind_Next (deref (Some first)) _ w' w' first eq_refl).
  apply bind_Crash.
  rewrite (bind_Next (deref (Some auth)) _ w' w' auth eq_refl).
  rewrite Huser. simpl. apply bind_Crash.
  rewrite index_mapDelete. case_decide; [done|].
  destruct (Go.index (utils.M first) "objectId") eqn:Hv; try done.
  by destruct (Hbad s).
Qed.

End HandlerFacts.


Lemma HandleFind_rejects_bad_query_witness :
  let api := controllersStub.stubAPI controllersStub.bare in
  let o := controllersStub.queried (<["skip" := "ten"]> (<["limit" := "x"]> ∅)) in
  controllers.GetString (controllers.Ctx o) "skip" ≠ ""
  ∧ strconv.Atoi (controllers.GetString (controllers.Ctx o) "skip") = None
  ∧ @controllers.HandleFind _ api o []
    = controllers.Served
        (controllers.json
           (controllers.ErrorMessageToMap InvalidQuery "skip should be int"))
        [].
Proof.
  split; [discriminate|]. split; [reflexivity|].
  refine (proj1
            (@HandleFind_rejects_bad_query _
               (controllersStub.stubAPI controllersStub.bare)
               (controllersStub.queried
                  (<["skip" := "ten"]> (<["limit" := "x"]> ∅))) [])
            _ eq_refl).
  discriminate.
Defined.

Lemma refreshTokens_touches_tokens_only_witness :
  let o := controllersExample.prepared "_User" "" in
  let rows := [controllersExample.userRow "u1" "r:stored1"; VInt 7;
               VMap (<["objectId" := VString "u3"]> ∅)] in
  let rows' := [controllersExample.userRow "u1" "r:current"; VInt 7;
                VMap (<["objectId" := VString "u3"]> ∅)] in
  controllers.refreshTokens o rows ([] : controllersExample.Log)
  = controllers.Next rows' []
  ∧ length rows' = length rows.
Proof.
  split; [reflexivity|].
  exact (proj1 (proj2
           (@refreshTokens_touches_tokens_only controllersExample.Log
              (controllersExample.prepared "_User" "")
              [controllersExample.userRow "u1" "r:stored1"; VInt 7;
               VMap (<["objectId" := VString "u3"]> ∅)]
              _ [] [] eq_refl))).
Defined.

Lemma HandleGet_serves_first_result_witness :
  let api := controllersExample.exampleAPI controllersExample.twoUsers in
  let o := controllersExample.prepared "_Session" "s1" in
  controllers.ClassName (controllers.withClassName o) ≠ "_User"
  ∧ @controllers.HandleGet _ api o []
    = controllers.Served
        (controllers.json
           (controllers.Data (controllersExample.userRow "u1" "r:stored1")))
        [].
Proof.
  split; [discriminate|].
  refine (@HandleGet_serves_first_result _
            (controllersExample.exampleAPI controllersExample.twoUsers)
            (controllersExample.prepared "_Session" "s1")
            controllersExample.userInfo [] [] controllersExample.twoUsers
            (controllersExample.userRow "u1" "r:stored1")
            [controllersExample.userRow "u2" "r:stored2"]
            eq_refl _ eq_refl eq_refl).
  discriminate.
Defined.

Lemma HandleGet_User_without_objectId_witness :
  let api := controllersExample.exampleAPI controllersStub.namesOnly in
  let o := controllersExample.prepared "_User" "u1" in
  controllers.ClassName (controllers.withClassName o) = "_User"
  ∧ controllers.Auth o = Some controllersExample.userAuth
  ∧ @controllers.HandleGet _ api o [] = controllers.Crash.
Proof.
  split; [reflexivity|]. split; [reflexivity|].
  refine (@HandleGet_User_without_objectId _
            (controllersExample.exampleAPI controllersStub.namesOnly)
            (controllersExample.prepared "_User" "u1")
            controllersExample.userInfo controllersExample.userAuth
            (<["objectId" := VString "u1"]> ∅) [] []
            controllersStub.namesOnly
            (VMap (<["username" := VString "joe"]> ∅)) []
            eq_refl eq_refl eq_refl eq_refl eq_refl eq_refl _).
  intros s. discriminate.
Defined.


(** ** The Destroy orchestrator, further *)

Section DestroyExtras.
Import rest.
Context {W : Type} `{Collaborators W}.

(** X16.  For a master caller, [Execute] runs the BeforeDelete hook, then
    the Store delete with the query of the request and no options, then the
    AfterDelete hook, each on the world the one before left; both hooks get
    the original data as the old object and no new object; roles are not
    resolved and the receiver is left as it was. *)
Theorem Execute_master (d : Destroy) (w : W) :
  IsMaster (auth d) = true →
  Execute d w
  = let w1 := (RunTrigger TypeBeforeDelete (className d) (auth d) None
                 (originalData d) w).1 in
    let w2 := (orm_Destroy (className d) (query d) ∅ w1).1 in
    let w3 := (RunTrigger TypeAfterDelete (className d) (auth d) None
                 (originalData d) w2).1 in
    Continue (None, d, w3).
Proof.
  intros Hm. unfold Execute. rewrite handleSession_id. simpl.
  unfold runBeforeTrigger.
  destruct (RunTrigger TypeBeforeDelete _ _ _ _ w) as [w1 e1]. simpl.
  unfold handleUserRoles. rewrite Hm. simpl.
  rewrite runDestroy_master by done. simpl.
  unfold runAfterTrigger.
  by destruct (RunTrigger TypeAfterDelete _ _ _ _ _) as [w3 e3].
Qed.

(** X17.  No error changes what [Execute] does: with collaborators that
    report errors it behaves as with the same collaborators silenced.  In
    particular a Store delete that fails is still followed by the
    AfterDelete hook. *)
Theorem Execute_ignores_errors (d : Destroy) (w : W) :
  Execute d w = Execute (H := silent H) d w.
Proof.
  unfold Execute. rewrite !handleSession_id. simpl.
  unfold runBeforeTrigger. simpl.
  destruct (RunTrigger TypeBeforeDelete _ _ _ _ w) as [w1 e1]. simpl.
  unfold handleUserRoles. simpl.
  destruct (negb (IsMaster (auth d))); simpl.
  - destruct (GetUserRoles (auth d) w1) as [a w2]. simpl.
    unfold runDestroy. simpl.
    destruct (negb (IsMaster a)); simpl.
    + destruct (User a) as [u|]; simpl.
      * destruct (Go.assertString _); simpl; [|done].
        destruct (orm_Destroy _ _ _ w2) as [w3 e3]. simpl.
        unfold runAfterTrigger. simpl.
        by destruct (RunTrigger TypeAfterDelete _ _ _ _ w3).
      * destruct (orm_Destroy _ _ _ w2) as [w3 e3]. simpl.
        unfold runAfterTrigger. simpl.
        by destruct (RunTrigger TypeAfterDelete _ _ _ _ w3).
    + destruct (orm_Destroy _ _ _ w2) as [w3 e3]. simpl.
      unfold runAfterTrigger. simpl.
      by destruct (RunTrigger TypeAfterDelete _ _ _ _ w3).
  - unfold runDestroy. simpl.
    destruct (negb (IsMaster (auth d))); simpl.
    + destruct (User (auth d)) as [u|]; simpl.
      * destruct (Go.assertString _); simpl; [|done].
        destruct (orm_Destroy _ _ _ w1) as [w3 e3]. simpl.
        unfold runAfterTrigger. simpl.
        by destruct (RunTrigger TypeAfterDelete _ _ _ _ w3).
      * destruct (orm_Destroy _ _ _ w1) as [w3 e3]. simpl.
        unfold runAfterTrigger. simpl.
        by destruct (RunTrigger TypeAfterDelete _ _ _ _ w3).
    + destruct (orm_Destroy _ _ _ w1) as [w3 e3]. simpl.
      unfold runAfterTrigger. simpl.
      by destruct (RunTrigger TypeAfterDelete _ _ _ _ w3).
Qed.

(** X18.  [Execute] never rewrites the request: the receiver it leaves has
    the class name, the query and the original data it was given, and its
    [auth] is the one role resolution returned (the one given, for a master
    caller). *)
Theorem Execute_keeps_request (d d' : Destroy) (w w' : W) (r : M) :
  Execute d w = Continue (r, d', w') →
  className d' = className d
  ∧ query d' = query d
  ∧ originalData d' = originalData d
  ∧ auth d'
    = if IsMaster (auth d) then auth d
      else (GetUserRoles (auth d)
              (RunTrigger TypeBeforeDelete (className d) (auth d) None
                 (originalData d) w).1).1.
Proof.
  unfold Execute. rewrite handleSession_id. simpl.
  unfold runBeforeTrigger.
  destruct (RunTrigger TypeBeforeDelete _ _ _ _ w) as [w1 e1]. simpl.
  unfold handleUserRoles.
  destruct (IsMaster (auth d)) eqn:Hm; simpl.
  - rewrite runDestroy_master by done. simpl. unfold runAfterTrigger.
    destruct (RunTrigger TypeAfterDelete _ _ _ _ _). by intros [= <- <- <-].
  - destruct (GetUserRoles (auth d) w1) as [a w2]. simpl.
    destruct (runDestroy (setAuth d a) w2) as [[[e3 d3] w3]|] eqn:Hr; [|done].
    simpl. unfold runAfterTrigger.
    destruct (RunTrigger TypeAfterDelete _ _ _ _ _). intros [= <- <- <-].
    assert (d3 = setAuth d a) as ->; [|done].
    destruct (IsMaster a) eqn:Hma.
    + rewrite runDestroy_master in Hr by done. by injection Hr.
    + rewrite runDestroy_restricted in Hr by done.
      destruct (aclOf _); [|done]. by injection Hr.
Qed.

End DestroyExtras.

Lemma Execute_master_witness :
  rest.IsMaster (rest.auth restExample.destroyO1) = true
  ∧ rest.Execute restExample.destroyO1 restExample.rows0
    = Continue (None, restExample.destroyO1, [("Locked", "o2")]).
Proof.
  split; [reflexivity|].
  exact (Execute_master restExample.destroyO1 restExample.rows0 eq_refl).
Defined.

Lemma Execute_keeps_request_witness :
  rest.Execute restExample.destroyO1 restExample.rows0
  = Continue (None, restExample.destroyO1, [("Locked", "o2")])
  ∧ rest.query restExample.destroyO1
    = Some {["objectId" := VString "o1"]}.
Proof.
  split; [reflexivity|].
  exact (proj1 (proj2
           (Execute_keeps_request restExample.destroyO1 restExample.destroyO1
              restExample.rows0 [("Locked", "o2")] None eq_refl))).
Defined.


(** ** Fetching a JSON document ([request]) *)

Section RequestFacts.
Import authdatamanager.
Context {W Request Body : Type} `{Net W Request Body}.

(** X19.  [request] hands back an error exactly when creating the request,
    sending it, reading the body or decoding it failed, the error being the
    one of the first stage that failed, and then the result is nil; when
    all four succeed the result is the decoding of the bytes read, with a nil
    error. *)
Theorem request_result (path : string) (headers : gmap string string) (w : W) :
  (request path headers w).1
  = match http_NewRequest "GET" path with
    | inl err => (None, Some err)
    | inr r =>
        match client_Do (withHeaders r headers) w with
        | (inl err, _) => (None, Some err)
        | (inr body, w1) =>
            match (ioutil_ReadAll body w1).1 with
            | inl err => (None, Some err)
            | inr bytes =>
                match json_Unmarshal bytes with
                | inl err => (None, Some err)
                | inr result => (result, None)
                end
            end
        end
    end
  ∧ ((request path headers w).1.2 ≠ None → (request path headers w).1.1 = None).
Proof.
  unfold request. destruct (http_NewRequest "GET" path) as [e|r]; [done|].
  destruct (client_Do _ w) as [[e|body] w1]; [done|].
  destruct (ioutil_ReadAll body w1) as [[e|bytes] w2]; [done|]. simpl.
  by destruct (json_Unmarshal bytes).
Qed.

(** X20.  Once the request has been sent, the body of the response is closed
    on every path: after the read, whether or not the read or the decoding
    failed.  When the request could not be created or sent, nothing is
    closed. *)
Theorem request_closes_body (path : string) (headers : gmap string string)
    (w : W) :
  (request path headers w).2
  = match http_NewRequest "GET" path with
    | inl _ => w
    | inr r =>
        match client_Do (withHeaders r headers) w with
        | (inl _, w1) => w1
        | (inr body, w1) => Body_Close body (ioutil_ReadAll body w1).2
        end
    end.
Proof.
  unfold request. destruct (http_NewRequest "GET" path) as [e|r]; [done|].
  destruct (client_Do _ w) as [[e|body] w1]; [done|].
  destruct (ioutil_ReadAll body w1) as [[e|bytes] w2]; [done|]. simpl.
  by destruct (json_Unmarshal bytes).
Qed.

End RequestFacts.

(** A read that fails: the error comes back and the body is closed. *)
Example request_failing_read :
  authdatamanager.request "https://id.example/me" ∅
    {| netExample.opened := []; netExample.closed := [] |}
  = ((None, Some (E (Code 2) "connection reset")),
     {| netExample.opened := []; netExample.closed := [1%nat] |}).
Proof. reflexivity. Qed.
